(** * Weather 2 Wear: a shallow embedding of [W2W/single_page_app.py]

    The development follows the source file top to bottom:

    - [Py]: the Python values, exceptions and subscripting rules the
      source relies on (JSON-shaped data, [KeyError], truthiness);
    - [TopLevel]: the module-level statements (imports, the metrics
      counter, the metrics server and the [while True] loop) as a small
      step machine over the module namespace;
    - [Aggregator]: [process_weather_data], with [np.mean] and both
      classes that the name [Counter] is imported as;
    - [Formatter]: [get_weather_icon_html] and [format_outfit_suggestions];
    - [Client]: [send_request] over a network oracle, in a state and
      exception monad that records what reaches the page;
    - [Controller]: [show_loading_bar], the two display helpers and
      [single_page_app];
    - [Statements]: the vocabulary of the properties (what a ForecastSet
      is, the tally of a list of labels, the states of the top level),
      followed by the facts, component by component. Each property of
      the specification is marked with its number, C1 to C10.

    Numbers are exact rationals ([Qc]): the averages are stated up to the
    rounding of binary floating point, which the source delegates to
    numpy. *)

From Stdlib Require Import QArith Qcanon ZArith Lia.
From stdpp Require Import gmap strings list fin_maps.

Set Warnings "-register-all".
Set Default Proof Using "Type".

(* ===================================================================== *)
(** ** Python values and exceptions                                       *)
(* ===================================================================== *)

Module Py.

(** What [json()] can return, and what the source passes around: [None],
    booleans, numbers (ints and floats alike), strings, lists and
    dictionaries with string keys. *)
Inductive pyval :=
| PNone
| PBool (b : bool)
| PNum (q : Qc)
| PStr (s : string)
| PList (l : list pyval)
| PDict (d : gmap string pyval).

(** A Python [float]: a finite value or [nan] (what [np.mean] gives for
    an empty sequence). *)
Inductive pyfloat :=
| Fin (q : Qc)
| NaN.

(** The transport and status failures of the [requests] library; every
    one of them is a subclass of [requests.RequestException]. *)
Inductive request_failure :=
| RequestTimeout
| ConnectionError
| TooManyRedirects
| HTTPError (status : Z).

(** The exceptions that the source and the libraries it calls can raise. *)
Inductive exn :=
| KeyError (key : string)
| IndexError
| TypeError (msg : string)
| AttributeError (attr : string)
| NameError (name : string)
| UnboundLocalError (name : string)
| JSONDecodeError
| RequestException (f : request_failure)
| OSError (msg : string)
| StreamlitAPIException (msg : string).

(** The name of the exception's class, as Python reports it. *)
Definition exn_name (e : exn) : string :=
  match e with
  | KeyError _ => "KeyError"
  | IndexError => "IndexError"
  | TypeError _ => "TypeError"
  | AttributeError _ => "AttributeError"
  | NameError _ => "NameError"
  | UnboundLocalError _ => "UnboundLocalError"
  | JSONDecodeError => "JSONDecodeError"
  | RequestException RequestTimeout => "Timeout"
  | RequestException ConnectionError => "ConnectionError"
  | RequestException TooManyRedirects => "TooManyRedirects"
  | RequestException (HTTPError _) => "HTTPError"
  | OSError _ => "OSError"
  | StreamlitAPIException _ => "StreamlitAPIException"
  end.

(** [except requests.RequestException]: the library's own failures, and
    its [JSONDecodeError], which derives from [InvalidJSONError]. *)
Definition is_RequestException (e : exn) : bool :=
  match e with
  | RequestException _ | JSONDecodeError => true
  | _ => false
  end.

(** [except ValueError]: of the exceptions above only [JSONDecodeError]
    derives from [ValueError]. *)
Definition is_ValueError (e : exn) : bool :=
  match e with
  | JSONDecodeError => true
  | _ => false
  end.

(** A call either returns or raises. *)
Inductive result (A : Type) :=
| Ok (a : A)
| Raise (e : exn).
Arguments Ok {A} a.
Arguments Raise {A} e.

#[global] Instance result_ret : MRet result := λ A a, Ok a.
#[global] Instance result_bind : MBind result := λ A B f r,
  match r with
  | Ok a => f a
  | Raise e => Raise e
  end.

#[global] Instance result_fmap : FMap result := λ A B f r,
  match r with
  | Ok a => Ok (f a)
  | Raise e => Raise e
  end.

(** [v[k]] for a string [k]. *)
Definition getitem (v : pyval) (k : string) : result pyval :=
  match v with
  | PDict d =>
      match d !! k with
      | Some x => Ok x
      | None => Raise (KeyError k)
      end
  | PList _ => Raise (TypeError "list indices must be integers or slices, not str")
  | PStr _ => Raise (TypeError "string indices must be integers")
  | _ => Raise (TypeError "object is not subscriptable")
  end.

(** [v[0]]. A dictionary decoded from JSON has string keys only, so the
    integer key is never found. *)
Definition getitem0 (v : pyval) : result pyval :=
  match v with
  | PList l =>
      match l with
      | x :: _ => Ok x
      | [] => Raise IndexError
      end
  | PStr s =>
      match s with
      | String c _ => Ok (PStr (String c ""))
      | EmptyString => Raise IndexError
      end
  | PDict _ => Raise (KeyError "0")
  | _ => Raise (TypeError "object is not subscriptable")
  end.

Fixpoint chars (s : string) : list pyval :=
  match s with
  | EmptyString => []
  | String c s' => PStr (String c "") :: chars s'
  end.

(** The elements a [for] loop visits. A dictionary yields its keys; the
    order of [map_to_list] is not Python's insertion order, which no
    caller below can observe (each fails on the first key, whichever it
    is). *)
Definition py_iter (v : pyval) : result (list pyval) :=
  match v with
  | PList l => Ok l
  | PStr s => Ok (chars s)
  | PDict d => Ok (PStr <$> (map_to_list d).*1)
  | _ => Raise (TypeError "object is not iterable")
  end.

(** Truthiness of a value, as [if v:] tests it. *)
Definition truthy (v : pyval) : bool :=
  match v with
  | PNone => false
  | PBool b => b
  | PNum q => negb (bool_decide (q = 0%Qc))
  | PStr s => negb (bool_decide (s = ""))
  | PList l => negb (bool_decide (length l = 0))
  | PDict d => negb (bool_decide (size d = 0))
  end.

End Py.
Export Py.

(* ===================================================================== *)
(** ** The module's top level                                             *)
(* ===================================================================== *)

Module TopLevel.

(** What a module-level name can be bound to. *)
Inductive pyobj :=
| ModuleObj (name : string)
| TypingName (name : string)
| CollectionsCounter
| PrometheusCounter
| StartHttpServer
| CounterMetric (name documentation : string)
| Function (name : string).

(** The statements that occur at the top level of the source. *)
Inductive stmt :=
| SImport (bindings : list (string * pyobj))
| SAssignCall (target callee : string) (name documentation : string)
| SDef (name : string)
| SCallPort (callee : string) (port : Z)
| SWhileTrue (callee : string)
| SIfMain (page_title : string) (callee : string).

(** The top level of [single_page_app.py], statement by statement
    (source lines 1-25, 27-264 and 373-375). *)
Definition module_body : list stmt :=
  [ SImport [("Optional", TypingName "Optional"); ("Dict", TypingName "Dict");
             ("Tuple", TypingName "Tuple"); ("List", TypingName "List");
             ("Any", TypingName "Any")];
    SImport [("st", ModuleObj "streamlit")];
    SImport [("requests", ModuleObj "requests")];
    SImport [("time", ModuleObj "time")];
    SImport [("np", ModuleObj "numpy")];
    SImport [("Counter", CollectionsCounter)];
    SImport [("start_http_server", StartHttpServer); ("Counter", PrometheusCounter)];
    SImport [("random", ModuleObj "random")];
    SAssignCall "c" "Counter" "my_app_requests" "Total number of requests";
    SDef "handle_request";
    SCallPort "start_http_server" 8000;
    SWhileTrue "handle_request";
    SDef "get_weather_icon_html";
    SDef "send_request";
    SDef "show_loading_bar";
    SDef "format_outfit_suggestions";
    SImport [("Tuple", TypingName "Tuple")];
    SDef "process_weather_data";
    SDef "display_weather_summary";
    SDef "display_forecasts";
    SDef "single_page_app";
    SIfMain "Weather 2 Wear" "single_page_app" ].

(** What the process has done so far. *)
Record state := {
  globals : gmap string pyobj;    (* the module namespace *)
  metrics : gmap string nat;      (* the metrics registry: name to value *)
  server : option Z;              (* port of the metrics server, once started *)
  clock : nat;                    (* seconds spent in [time.sleep] *)
  draws : nat;                    (* calls of [random.randint] so far *)
  page_title : option string;     (* what [st.set_page_config] was given *)
  app_calls : nat                 (* calls of [single_page_app] so far *)
}.

Definition initial : state :=
  {| globals := ∅; metrics := ∅; server := None; clock := 0; draws := 0;
     page_title := None; app_calls := 0 |}.

Definition bind_name (x : string) (o : pyobj) (s : state) : state :=
  {| globals := <[x := o]> (globals s); metrics := metrics s; server := server s;
     clock := clock s; draws := draws s; page_title := page_title s;
     app_calls := app_calls s |}.

Definition lookup_global (s : state) (x : string) : result pyobj :=
  match globals s !! x with
  | Some o => Ok o
  | None => Raise (NameError x)
  end.

(** What the process cannot control: the numbers [random.randint] draws,
    whether port 8000 is free, and whether the file runs as a script. *)
Record environment := {
  random_draw : nat → nat;
  port_free : bool;
  run_as_main : bool
}.

(** [random.randint(1, 5)] at the [i]-th draw: always within 1..5. *)
Definition randint_1_5 (env : environment) (i : nat) : nat :=
  1 + random_draw env i `mod` 5.

(** [handle_request()] (source lines 15-18). *)
Definition handle_request (env : environment) (s : state) : result state :=
  c ← lookup_global s "c";
  match c with
  | CounterMetric name _ =>
      _ ← lookup_global s "time";
      _ ← lookup_global s "random";
      Ok {| globals := globals s;
            metrics := <[name := S (default 0 (metrics s !! name))]> (metrics s);
            server := server s;
            clock := clock s + randint_1_5 env (draws s);
            draws := S (draws s);
            page_title := page_title s;
            app_calls := app_calls s |}
  | _ => Raise (AttributeError "inc")
  end.

(** [callee()]. The body of [single_page_app] is the subject of the
    controller's model below; here only the fact that it is entered is
    recorded. *)
Definition call0 (env : environment) (callee : string) (s : state) : result state :=
  f ← lookup_global s callee;
  match f with
  | Function "handle_request" => handle_request env s
  | Function "single_page_app" =>
      Ok {| globals := globals s; metrics := metrics s; server := server s;
            clock := clock s; draws := draws s; page_title := page_title s;
            app_calls := S (app_calls s) |}
  | _ => Raise (TypeError "object cannot be called without arguments")
  end.

(** [target = callee(name, documentation)]: the metrics class takes the
    two strings and registers a counter at 0; the class of [collections]
    takes one positional argument at most. *)
Definition assign_call (target callee name documentation : string) (s : state)
    : result state :=
  f ← lookup_global s callee;
  match f with
  | PrometheusCounter =>
      Ok {| globals := <[target := CounterMetric name documentation]> (globals s);
            metrics := <[name := 0]> (metrics s); server := server s;
            clock := clock s; draws := draws s; page_title := page_title s;
            app_calls := app_calls s |}
  | CollectionsCounter =>
      Raise (TypeError "expected at most 1 argument, got 2")
  | _ => Raise (TypeError "object is not callable")
  end.

(** [callee(port)]. *)
Definition call_port (env : environment) (callee : string) (port : Z) (s : state)
    : result state :=
  f ← lookup_global s callee;
  match f with
  | StartHttpServer =>
      if port_free env
      then Ok {| globals := globals s; metrics := metrics s; server := Some port;
                 clock := clock s; draws := draws s; page_title := page_title s;
                 app_calls := app_calls s |}
      else Raise (OSError "Address already in use")
  | _ => Raise (TypeError "object is not callable")
  end.

(** [st.set_page_config(page_title=title)]. *)
Definition set_page_config (title : string) (s : state) : result state :=
  _ ← lookup_global s "st";
  Ok {| globals := globals s; metrics := metrics s; server := server s;
        clock := clock s; draws := draws s; page_title := Some title;
        app_calls := app_calls s |}.

(** A configuration: the statements still to run, and the state. *)
Inductive config :=
| Running (todo : list stmt) (s : state)
| Finished (s : state)
| Crashed (e : exn) (s : state).

Definition continue (todo : list stmt) (s : state) (r : result state) : config :=
  match r with
  | Ok s' => Running todo s'
  | Raise e => Crashed e s
  end.

(** One step: the first statement still to run. A [while True] loop runs
    its body once and stays first in line. *)
Definition step (env : environment) (c : config) : config :=
  match c with
  | Running [] s => Finished s
  | Running (SImport bs :: todo) s =>
      Running todo (foldl (λ s' b, bind_name b.1 b.2 s') s bs)
  | Running (SAssignCall x f name documentation :: todo) s =>
      continue todo s (assign_call x f name documentation s)
  | Running (SDef f :: todo) s =>
      Running todo (bind_name f (Function f) s)
  | Running (SCallPort f port :: todo) s =>
      continue todo s (call_port env f port s)
  | Running (SWhileTrue f :: todo) s =>
      continue (SWhileTrue f :: todo) s (call0 env f s)
  | Running (SIfMain title f :: todo) s =>
      if run_as_main env
      then continue todo s (s' ← set_page_config title s; call0 env f s')
      else Running todo s
  | Finished s => Finished s
  | Crashed e s => Crashed e s
  end.

Fixpoint run (env : environment) (n : nat) (c : config) : config :=
  match n with
  | O => c
  | S n' => run env n' (step env c)
  end.

Definition start : config := Running module_body initial.

Definition config_state (c : config) : state :=
  match c with
  | Running _ s | Finished s | Crashed _ s => s
  end.

Definition is_finished (c : config) : bool :=
  match c with
  | Finished _ => true
  | _ => false
  end.

Definition is_loop (st : stmt) : bool :=
  match st with
  | SWhileTrue _ => true
  | _ => false
  end.

(** The file imported as a module, with port 8000 free. *)
Definition an_import : environment :=
  {| random_draw := λ _, 0; port_free := true; run_as_main := false |}.

(** The namespace that the module's binding statements build, in source
    order: the [globals] every function of the module reads its free
    names from. The loop binds nothing and is left out. *)
Definition module_globals : gmap string pyobj :=
  let body := filter (λ st, is_loop st = false) module_body in
  globals (config_state (run an_import (length body) (Running body initial))).

End TopLevel.
Export TopLevel.

(* ===================================================================== *)
(** ** The aggregator: [process_weather_data]                             *)
(* ===================================================================== *)

Module Aggregator.

(** A number as numpy reads it from a Python list: ints and floats, and
    booleans as 0 and 1. *)
Definition as_number (v : pyval) : option Qc :=
  match v with
  | PNum q => Some q
  | PBool true => Some 1%Qc
  | PBool false => Some 0%Qc
  | _ => None
  end.

Fixpoint as_numbers (vs : list pyval) : option (list Qc) :=
  match vs with
  | [] => Some []
  | v :: rest =>
      match as_number v, as_numbers rest with
      | Some q, Some qs => Some (q :: qs)
      | _, _ => None
      end
  end.

Definition Qc_sum (qs : list Qc) : Qc := foldr Qcplus 0%Qc qs.

Definition Qc_of_nat (n : nat) : Qc := Q2Qc (inject_Z (Z.of_nat n)).

(** The arithmetic mean of a sequence: the sum over the number of items. *)
Definition arithmetic_mean (qs : list Qc) : Qc :=
  (Qc_sum qs / Qc_of_nat (length qs))%Qc.

(** [float(np.mean(xs))] on a flat Python list. The mean of no numbers is
    [nan] (numpy warns, it does not raise); a sequence that holds [None],
    a string or a dictionary makes numpy raise a [TypeError]. Items that
    are themselves lists (which numpy would read as a matrix, or refuse
    with a [ValueError] when their lengths differ) do not occur in a
    forecast and are reported like the other non-numbers. The mean of
    numbers is the exact rational one: the rounding of binary64 and its
    overflow to [inf] are left out, so a statement about the value of a
    mean holds of the code up to that rounding only. *)
Definition np_mean (xs : list pyval) : result pyfloat :=
  match as_numbers xs with
  | Some [] => Ok NaN
  | Some qs => Ok (Fin (arithmetic_mean qs))
  | None => Raise (TypeError "unsupported operand type(s) for mean")
  end.

(** Whether a value can be a dictionary key. *)
Definition hashable (v : pyval) : bool :=
  match v with
  | PList _ | PDict _ => false
  | _ => true
  end.

(** Equality of two hashable values as dictionary keys: numbers compare
    by value ([True == 1]), strings by content. *)
Definition key_eqb (a b : pyval) : bool :=
  match a, b with
  | PNone, PNone => true
  | PStr s, PStr t => bool_decide (s = t)
  | PStr _, _ | _, PStr _ => false
  | _, _ =>
      match as_number a, as_number b with
      | Some p, Some q => bool_decide (p = q)
      | _, _ => false
      end
  end.

(** A [collections.Counter]: a dictionary from items to counts, which
    keeps its keys in the order of their first insertion. *)
Definition counts : Type := list (pyval * nat).

(** [mapping[elem] = mapping.get(elem, 0) + 1]. *)
Fixpoint count_one (elem : pyval) (c : counts) : counts :=
  match c with
  | [] => [(elem, 1)]
  | (k, n) :: c' =>
      if key_eqb k elem then (k, S n) :: c' else (k, n) :: count_one elem c'
  end.

(** [collections.Counter(iterable)]: one pass over the items, left to
    right. *)
Fixpoint count_elements (xs : list pyval) (c : counts) : result counts :=
  match xs with
  | [] => Ok c
  | x :: rest =>
      if hashable x then count_elements rest (count_one x c)
      else Raise (TypeError "unhashable type")
  end.

(** [max(items, key=itemgetter(1))]: the running best is replaced only by
    a strictly greater count, so the first maximal item is kept. *)
Fixpoint max_by_count (best : pyval * nat) (c : counts) : pyval * nat :=
  match c with
  | [] => best
  | x :: c' => if best.2 <? x.2 then max_by_count x c' else max_by_count best c'
  end.

(** [most_common(1)], which is [heapq.nlargest(1, items, key=count)]: the
    empty list for an empty counter, else the first maximal item. *)
Definition most_common_1 (c : counts) : list (pyval * nat) :=
  match c with
  | [] => []
  | x :: c' => [max_by_count x c']
  end.

(** [Counter(xs).most_common(1)[0][0]] when [Counter] is
    [collections.Counter]. *)
Definition collections_most_common (xs : list pyval) : result pyval :=
  c ← count_elements xs [];
  match most_common_1 c with
  | item :: _ => Ok item.1
  | [] => Raise IndexError
  end.

(** [Counter(xs).most_common(1)[0][0]] in the namespace [g] (source line
    162). The class from [prometheus_client] requires a name and a
    documentation string, so the call with the list alone raises before
    any method is looked up. *)
Definition Counter_most_common (g : gmap string pyobj) (xs : list pyval)
    : result pyval :=
  match g !! "Counter" with
  | None => Raise (NameError "Counter")
  | Some CollectionsCounter => collections_most_common xs
  | Some PrometheusCounter =>
      Raise (TypeError "missing 1 required positional argument: 'documentation'")
  | Some _ => Raise (TypeError "object is not callable")
  end.

(** [np.mean(xs)] in the namespace [g]. *)
Definition call_np_mean (g : gmap string pyobj) (xs : list pyval) : result pyfloat :=
  match g !! "np" with
  | None => Raise (NameError "np")
  | Some (ModuleObj name) =>
      if bool_decide (name = "numpy") then np_mean xs
      else Raise (AttributeError "mean")
  | Some _ => Raise (AttributeError "mean")
  end.

(** The four lists the loop fills (source line 151). *)
Record series := {
  temps : list pyval;
  humidities : list pyval;
  wind_speeds : list pyval;
  weather_main_conditions : list pyval
}.

Definition no_series : series :=
  {| temps := []; humidities := []; wind_speeds := [];
     weather_main_conditions := [] |}.

(** The loop over the forecasts (source lines 153-157). *)
Fixpoint collect (forecasts : list pyval) (acc : series) : result series :=
  match forecasts with
  | [] => Ok acc
  | forecast :: rest =>
      main ← getitem forecast "main";
      temp ← getitem main "temp";
      main' ← getitem forecast "main";
      humidity ← getitem main' "humidity";
      wind ← getitem forecast "wind";
      speed ← getitem wind "speed";
      weather ← getitem forecast "weather";
      first ← getitem0 weather;
      condition ← getitem first "main";
      collect rest
        {| temps := temps acc ++ [temp];
           humidities := humidities acc ++ [humidity];
           wind_speeds := wind_speeds acc ++ [speed];
           weather_main_conditions := weather_main_conditions acc ++ [condition] |}
  end.

(** What the function returns: the three averages and the label. *)
Record summary := {
  avg_temp : pyfloat;
  avg_humidity : pyfloat;
  avg_wind_speed : pyfloat;
  most_common_weather : pyval
}.

(** The three averages (source lines 159-161), before the label is
    looked for. *)
Definition averages (g : gmap string pyobj) (s : series)
    : result (pyfloat * pyfloat * pyfloat) :=
  t ← call_np_mean g (temps s);
  h ← call_np_mean g (humidities s);
  w ← call_np_mean g (wind_speeds s);
  Ok (t, h, w).

(** [process_weather_data(weather_data)] (source lines 151-164), run with
    the module namespace [g]. *)
Definition process_weather_data (g : gmap string pyobj) (weather_data : pyval)
    : result summary :=
  entries ← getitem weather_data "list";
  forecasts ← py_iter entries;
  s ← collect forecasts no_series;
  avgs ← averages g s;
  label ← Counter_most_common g (weather_main_conditions s);
  Ok {| avg_temp := avgs.1.1; avg_humidity := avgs.1.2; avg_wind_speed := avgs.2;
        most_common_weather := label |}.

(** A forecast sample as the data model has it, and the JSON entry the
    weather endpoint sends for it. *)
Record sample := {
  temperature : Qc;
  humidity : Qc;
  wind_speed : Qc;
  condition : string
}.

Definition forecast_entry (x : sample) : pyval :=
  PDict {[ "main" := PDict {[ "temp" := PNum (temperature x);
                              "humidity" := PNum (humidity x) ]};
           "wind" := PDict {[ "speed" := PNum (wind_speed x) ]};
           "weather" := PList [PDict {[ "main" := PStr (condition x) ]}] ]}.

(** A [weather_data] dictionary whose 'list' holds the given samples. *)
Definition forecast_set (xs : list sample) : pyval :=
  PDict {[ "list" := PList (forecast_entry <$> xs) ]}.

(** The namespace of the module with [Counter] bound as the first of the
    two imports has it (source line 7). *)
Definition globals_with_collections_Counter : gmap string pyobj :=
  <["Counter" := CollectionsCounter]> module_globals.

End Aggregator.
Export Aggregator.

(* ===================================================================== *)
(** ** The presentation formatter                                         *)
(* ===================================================================== *)

Module Formatter.

Definition dq : string := String (Ascii.ascii_of_nat 34) "".
Definition nl : string := String (Ascii.ascii_of_nat 10) "".

Section Rendering.

(** [format(v, '')], the text an f-string puts in place of [{v}]: the
    string itself for a [str], the interpreter's [str(v)] otherwise. *)
Variable py_str : pyval → string.

(** [get_weather_icon_html(icon_code)] (source lines 44-45). *)
Definition get_weather_icon_html (icon_code : pyval) : string :=
  let base_url := "https://openweathermap.org/img/wn/" in
  "<img src=" +:+ dq +:+ base_url +:+ py_str icon_code +:+ "@2x.png" +:+ dq
    +:+ " width=" +:+ dq +:+ "50" +:+ dq +:+ ">".

(** The markup of [format_outfit_suggestions] once the five slots are
    read (source lines 123-131). *)
Definition outfit_markup (top bottom footwear outerwear accessories : pyval) : string :=
  nl +:+
  "    <div class=" +:+ dq +:+ "response-info" +:+ dq +:+ ">" +:+ nl +:+
  "        <strong>Top:</strong> " +:+ py_str top +:+ "<br>" +:+ nl +:+
  "        <strong>Bottom:</strong> " +:+ py_str bottom +:+ "<br>" +:+ nl +:+
  "        <strong>Footwear:</strong> " +:+ py_str footwear +:+ "<br>" +:+ nl +:+
  "        <strong>Outerwear:</strong> " +:+ py_str outerwear +:+ "<br>" +:+ nl +:+
  "        <strong>Accessories:</strong> " +:+ py_str accessories +:+ "<br>" +:+ nl +:+
  "    </div>" +:+ nl +:+
  "    ".

(** [format_outfit_suggestions(suggestions)]: the five subscripts are
    evaluated left to right, and the string exists only once all five
    have been read. *)
Definition format_outfit_suggestions (suggestions : pyval) : result string :=
  top ← getitem suggestions "Top";
  bottom ← getitem suggestions "Bottom";
  footwear ← getitem suggestions "Footwear";
  outerwear ← getitem suggestions "Outerwear";
  accessories ← getitem suggestions "Accessories";
  Ok (outfit_markup top bottom footwear outerwear accessories).

End Rendering.

(** The five clothing slots. *)
Definition clothing_slots : list string :=
  ["Top"; "Bottom"; "Footwear"; "Outerwear"; "Accessories"].

(** A renderer that knows strings only, for running the examples. *)
Definition str_of_text (v : pyval) : string :=
  match v with
  | PStr s => s
  | _ => "?"
  end.

End Formatter.
Export Formatter.

(* ===================================================================== *)
(** ** The request client                                                 *)
(* ===================================================================== *)

Module Client.

(** A response of the [requests] library: the status, the body as text,
    and the body as JSON when it is JSON. *)
Record response := {
  status_code : Z;
  text : string;
  json_body : option pyval
}.

(** A value of the dictionary sent as the body of a POST: a string, a
    float (which may be [nan]) or a value taken from a reply. *)
Inductive field :=
| FieldStr (s : string)
| FieldFloat (f : pyfloat)
| FieldValue (v : pyval).

(** One outbound exchange. *)
Record request := {
  req_method : string;
  req_url : string;
  req_json : option (gmap string field);
  req_headers : list (string * string)
}.

(** How an exchange ends: with a response, or with a failure raised by
    the transport. *)
Inductive exchange :=
| Replied (r : response)
| Failed (f : request_failure).

(** The texts the page shows. *)
Inductive message :=
| HttpRequestFailed (e : exn)
| FailedToFetchWeather (status : Z)
| FailedToSendData (status : Z)
| FailedToReadWeather
| PleaseEnterLocation.

(** What reaches the page, call by call. *)
Inductive ui_event :=
| StTitle (s : string)
| StHeader (s : string)
| StSubheader (s : string)
| StText (s : string)
| StStyle
| StSuccess (s : string)
| StError (m : message)
| StShow (label : string) (content : string)
| StShowError (e : exn)
| StProgress (percent : nat) (label : string)
| StProgressEmpty
| StExpander (label : string)
| StSummary (t h w : pyfloat) (label : pyval)
| StForecastWeather (main : pyval) (description : string) (icon_html : string)
| StForecastTemperature (v : pyval)
| StForecastHumidity (v : pyval)
| StForecastWind (v : pyval)
| StMarkdown (html : string).

(** Everything a run changes: the page, the exchanges performed, the
    session state, and the number of 10 ms sleeps. *)
Record world := {
  page : list ui_event;
  exchanges : list request;
  session_state : gmap string pyval;
  sleeps : nat
}.

Definition empty_world : world :=
  {| page := []; exchanges := []; session_state := ∅; sleeps := 0 |}.

(** A computation that changes the world and returns or raises. *)
Definition M (A : Type) : Type := world → result A * world.

#[global] Instance M_ret : MRet M := λ A a w, (Ok a, w).
#[global] Instance M_bind : MBind M := λ A B f m w,
  match m w with
  | (Ok a, w') => f a w'
  | (Raise e, w') => (Raise e, w')
  end.

Definition raise {A} (e : exn) : M A := λ w, (Raise e, w).

Definition lift {A} (r : result A) : M A := λ w, (r, w).

(** [try: body except E as e: handler(e)], where [catches] tells which
    exceptions are instances of [E]. *)
Definition try_except {A} (body : M A) (catches : exn → bool) (handler : exn → M A)
    : M A :=
  λ w,
    match body w with
    | (Raise e, w') => if catches e then handler e w' else (Raise e, w')
    | done => done
    end.

Definition emit (ev : ui_event) : M unit := λ w,
  (Ok (), {| page := page w ++ [ev]; exchanges := exchanges w;
             session_state := session_state w; sleeps := sleeps w |}).

Definition st_error (m : message) : M unit := emit (StError m).

Definition errors_shown (w : world) : list message :=
  omap (λ ev, match ev with StError m => Some m | _ => None end) (page w).

Section Network.

(** The network: what the [n]-th exchange of the run, carrying the given
    request, ends with. A call of [requests] is taken to get as far as the
    exchange: a URL or a payload that the library refuses beforehand (no
    scheme, a host it cannot parse, a [nan] in the JSON body) is outside
    what [perform] describes. *)
Variable network : nat → request → exchange.

Definition perform (rq : request) : M response := λ w,
  let w' := {| page := page w; exchanges := exchanges w ++ [rq];
               session_state := session_state w; sleeps := sleeps w |} in
  match network (length (exchanges w)) rq with
  | Replied r => (Ok r, w')
  | Failed f => (Raise (RequestException f), w')
  end.

(** [requests.get(url)]. *)
Definition requests_get (url : string) : M response :=
  perform {| req_method := "GET"; req_url := url; req_json := None;
             req_headers := [] |}.

(** [requests.post(url, json=json_data, headers=headers)]. *)
Definition requests_post (url : string) (json_data : option (gmap string field))
    (headers : list (string * string)) : M response :=
  perform {| req_method := "POST"; req_url := url; req_json := json_data;
             req_headers := headers |}.

(** [response.raise_for_status()]: an [HTTPError] for a 4xx or a 5xx
    status, nothing for any other. *)
Definition raise_for_status (r : response) : M unit :=
  if bool_decide (400 ≤ status_code r < 600)%Z
  then raise (RequestException (HTTPError (status_code r)))
  else mret ().

(** [send_request(url, method, json_data)] (source lines 71-81). The
    local [response] is bound by the two branches only; reading it
    unbound raises [UnboundLocalError] inside the [try]. *)
Definition send_request (url method : string) (json_data : option (gmap string field))
    : M (option response) :=
  try_except
    (bound ← (if bool_decide (method = "GET") then
                r ← requests_get url; mret (Some r)
              else if bool_decide (method = "POST") then
                let headers := [("Content-Type", "application/json")] in
                r ← requests_post url json_data headers; mret (Some r)
              else mret None);
     match bound with
     | Some r => _ ← raise_for_status r; mret (Some r)
     | None => raise (UnboundLocalError "response")
     end)
    is_RequestException
    (λ e, _ ← st_error (HttpRequestFailed e); mret None).

End Network.

(** [bool(response)], which is [response.ok]: no 4xx or 5xx status. *)
Definition response_ok (r : response) : bool :=
  negb (bool_decide (400 ≤ status_code r < 600)%Z).

(** [response.json()]. *)
Definition response_json (r : response) : result pyval :=
  match json_body r with
  | Some v => Ok v
  | None => Raise JSONDecodeError
  end.

End Client.
Export Client.

(* ===================================================================== *)
(** ** The page controller                                                *)
(* ===================================================================== *)

Module Controller.

(** The two choices the page offers. *)
Inductive activity_level := Low | Medium | High.
Inductive activity_type := Formal | Informal | Sport.

Definition level_label (a : activity_level) : string :=
  match a with
  | Low => "Low"
  | Medium => "Medium"
  | High => "High"
  end.

Definition type_label (a : activity_type) : string :=
  match a with
  | Formal => "Formal"
  | Informal => "Informal"
  | Sport => "Sport"
  end.

(** What the user has entered when the script runs. *)
Record inputs := {
  chosen_level : activity_level;
  chosen_type : activity_type;
  location : string;
  submit_pressed : bool
}.

Definition lower_char (c : Ascii.ascii) : Ascii.ascii :=
  let n := Ascii.nat_of_ascii c in
  if (65 <=? n) && (n <=? 90) then Ascii.ascii_of_nat (n + 32) else c.

Definition upper_char (c : Ascii.ascii) : Ascii.ascii :=
  let n := Ascii.nat_of_ascii c in
  if (97 <=? n) && (n <=? 122) then Ascii.ascii_of_nat (n - 32) else c.

(** [s.lower()] and [s.capitalize()] on ASCII text: a byte from 128 on,
    which is part of a character beyond ASCII, is left as it is, where
    Python would change the case of the character. *)
Fixpoint lower (s : string) : string :=
  match s with
  | EmptyString => EmptyString
  | String c s' => String (lower_char c) (lower s')
  end.

Definition capitalize (s : string) : string :=
  match s with
  | EmptyString => EmptyString
  | String c s' => String (upper_char c) (lower s')
  end.

(** [k in v] for a string [k]. *)
Definition py_contains (k : string) (v : pyval) : result bool :=
  match v with
  | PDict d => Ok (bool_decide (is_Some (d !! k)))
  | PList l =>
      Ok (existsb (λ x, match x with PStr s => bool_decide (s = k) | _ => false end) l)
  | PStr s => Ok (bool_decide (is_Some (String.index 0 k s)))
  | _ => Raise (TypeError "argument is not iterable")
  end.

Fixpoint for_each {A} (f : A → M unit) (l : list A) : M unit :=
  match l with
  | [] => mret ()
  | x :: rest => _ ← f x; for_each f rest
  end.

Definition sleep_10ms : M unit := λ w,
  (Ok (), {| page := page w; exchanges := exchanges w;
             session_state := session_state w; sleeps := S (sleeps w) |}).

Definition session_update (entries : list (string * pyval)) : M unit := λ w,
  (Ok (), {| page := page w; exchanges := exchanges w;
             session_state := foldl (λ m kv, <[kv.1 := kv.2]> m) (session_state w) entries;
             sleeps := sleeps w |}).

(** [st.progress(value, text=text)] and [progress_bar.progress(value,
    text=text)] for an [int]: the widget takes a percentage from 0 to 100
    and raises for any other. *)
Definition progress_value_error : exn :=
  StreamlitAPIException "Progress Value has invalid value [0, 100]".

Definition st_progress (value : nat) (text : string) : M unit :=
  if value <=? 100 then emit (StProgress value text)
  else raise progress_value_error.

(** [show_loading_bar(message, total)] (source lines 101-105). *)
Definition show_loading_bar (message : string) (total : nat) : M unit :=
  _ ← st_progress 0 message;
  _ ← for_each (λ percent, _ ← sleep_10ms; st_progress (percent + 1) message)
        (seq 0 total);
  emit StProgressEmpty.

(** [display_weather_summary] (source lines 187-205). *)
Definition display_weather_summary (s : summary) : M unit :=
  _ ← emit (StSubheader "Average weather over the next 24 hours");
  emit (StSummary (avg_temp s) (avg_humidity s) (avg_wind_speed s)
          (most_common_weather s)).

Section Run.

Variable py_str : pyval → string.
Variable network : nat → request → exchange.
Variable g : gmap string pyobj.

(** One pass of the loop of [display_forecasts] (source lines 225-261). *)
Definition display_forecast (forecast : pyval) : M unit :=
  dt_txt ← lift (getitem forecast "dt_txt");
  _ ← emit (StExpander ("Details for " +:+ py_str dt_txt));
  has_weather ← lift (py_contains "weather" forecast);
  _ ← (if has_weather : bool then
         conditions ← lift (getitem forecast "weather");
         weather ← lift (getitem0 conditions);
         icon ← lift (getitem weather "icon");
         let icon_html := get_weather_icon_html py_str icon in
         main ← lift (getitem weather "main");
         description ← lift (getitem weather "description");
         match description with
         | PStr d => emit (StForecastWeather main (capitalize d) icon_html)
         | _ => raise (AttributeError "capitalize")
         end
       else mret ());
  has_main ← lift (py_contains "main" forecast);
  _ ← (if has_main : bool then
         main ← lift (getitem forecast "main");
         temp_celsius ← lift (getitem main "temp");
         _ ← emit (StForecastTemperature temp_celsius);
         main' ← lift (getitem forecast "main");
         humidity_percent ← lift (getitem main' "humidity");
         emit (StForecastHumidity humidity_percent)
       else mret ());
  has_wind ← lift (py_contains "wind" forecast);
  if has_wind : bool then
    wind ← lift (getitem forecast "wind");
    wind_speed_ms ← lift (getitem wind "speed");
    emit (StForecastWind wind_speed_ms)
  else mret ().

(** [display_forecasts(forecasts)] (source lines 223-261). *)
Definition display_forecasts (forecasts : pyval) : M unit :=
  _ ← emit (StSubheader "Three Hourly Forecasts (Click to Expand)");
  items ← lift (py_iter forecasts);
  for_each display_forecast items.

Definition weather_endpoint : string :=
  "https://qpfmxgvcalf556dxkuuwki3nri0drjzb.lambda-url.us-west-1.on.aws//?location=".

Definition lambda_url : string :=
  "https://igg7yuddu27z2bmtbroylfsarm0jxzrb.lambda-url.us-west-1.on.aws/".

(** The dictionary posted to the recommendation endpoint (source lines
    337-344). *)
Definition aggregated_data (i : inputs) (s : summary) : gmap string field :=
  {[ "activity_level" := FieldStr (lower (level_label (chosen_level i)));
     "activity_type" := FieldStr (lower (type_label (chosen_type i)));
     "avg_temp" := FieldFloat (avg_temp s);
     "avg_humidity" := FieldFloat (avg_humidity s);
     "avg_wind_speed" := FieldFloat (avg_wind_speed s);
     "most_common_weather" := FieldValue (most_common_weather s) ]}.

(** [r.status_code] and [r.text] of what [send_request] returned; on
    [None] the attribute does not exist. *)
Definition attr_status_code (r : option response) : M Z :=
  match r with
  | Some r => mret (status_code r)
  | None => raise (AttributeError "status_code")
  end.

Definition attr_text (r : option response) : M string :=
  match r with
  | Some r => mret (text r)
  | None => raise (AttributeError "text")
  end.

(** [r and r.status_code == 200]. *)
Definition is_200 (r : option response) : bool :=
  match r with
  | Some r => response_ok r && bool_decide (status_code r = 200%Z)
  | None => false
  end.

(** The recommendation half of a submission (source lines 346-359). *)
Definition recommend (i : inputs) (s : summary) : M unit :=
  _ ← show_loading_bar "Generating Outfit Suggestions" 100;
  lambda_response ← send_request network lambda_url "POST" (Some (aggregated_data i s));
  if is_200 lambda_response then
    _ ← emit (StSubheader "AI Generated Clothing Recommendations");
    suggestions ← lift (from_option response_json (Raise (AttributeError "json"))
                          lambda_response);
    formatted_suggestions ← lift (format_outfit_suggestions py_str suggestions);
    emit (StMarkdown ("<div class='response-info'>" +:+ formatted_suggestions
                      +:+ "</div>"))
  else
    status ← attr_status_code lambda_response;
    _ ← st_error (FailedToSendData status);
    content ← attr_text lambda_response;
    emit (StShow "Response content:" content).

(** The body of the [try] (source lines 325-361). *)
Definition show_weather (i : inputs) (r : response) : M unit :=
  weather_data ← lift (response_json r);
  has_city ← lift (py_contains "city" weather_data);
  _ ← (if has_city : bool then
         city ← lift (getitem weather_data "city");
         city_name ← lift (getitem city "name");
         city' ← lift (getitem weather_data "city");
         country_code ← lift (getitem city' "country");
         _ ← emit (StSuccess "Weather information retrieved successfully!");
         emit (StSubheader ("Weather Information for " +:+ py_str city_name +:+ ", "
                            +:+ py_str country_code))
       else mret ());
  has_list ← lift (py_contains "list" weather_data);
  if has_list : bool then
    s ← lift (process_weather_data g weather_data);
    _ ← display_weather_summary s;
    _ ← recommend i s;
    forecasts ← lift (getitem weather_data "list");
    display_forecasts forecasts
  else mret ().

(** What follows a press of the button with a location (source lines
    311-368). *)
Definition submit (i : inputs) : M unit :=
  _ ← session_update [("activity_level", PStr (level_label (chosen_level i)));
                      ("activity_type", PStr (type_label (chosen_type i)));
                      ("location", PStr (location i));
                      ("submitted", PBool true)];
  _ ← show_loading_bar "Fetching Weather Information" 100;
  let weather_url := weather_endpoint +:+ location i in
  weather_response ← send_request network weather_url "GET" None;
  if is_200 weather_response then
    match weather_response with
    | Some r =>
        try_except (show_weather i r) is_ValueError
          (λ e, _ ← st_error FailedToReadWeather; emit (StShowError e))
    | None => mret ()
    end
  else
    status ← attr_status_code weather_response;
    _ ← st_error (FailedToFetchWeather status);
    content ← attr_text weather_response;
    emit (StShow "Response content:" content).

(** [single_page_app()] (source lines 280-370): one run of the script
    with the given inputs. *)
Definition single_page_app (i : inputs) : M unit :=
  _ ← emit (StTitle "Weather 2 Wear");
  _ ← emit StStyle;
  _ ← emit (StHeader "Tell me about you!");
  _ ← emit (StText "Select your activity preferences and location (use a postcode or name)");
  if submit_pressed i then
    if truthy (PStr (location i)) then submit i
    else st_error PleaseEnterLocation
  else mret ().

End Run.

End Controller.
Export Controller.

(* ===================================================================== *)
(** ** Vocabulary of the statements                                       *)
(* ===================================================================== *)

Module Statements.

(** The series the loop builds from well-formed entries. *)
Definition series_of (xs : list sample) : series :=
  {| temps := (λ x, PNum (temperature x)) <$> xs;
     humidities := (λ x, PNum (humidity x)) <$> xs;
     wind_speeds := (λ x, PNum (wind_speed x)) <$> xs;
     weather_main_conditions := (λ x, PStr (condition x)) <$> xs |}.

Definition series_app (a b : series) : series :=
  {| temps := temps a ++ temps b;
     humidities := humidities a ++ humidities b;
     wind_speeds := wind_speeds a ++ wind_speeds b;
     weather_main_conditions := weather_main_conditions a ++ weather_main_conditions b |}.

(** A forecast entry of the weather endpoint read as a sample: the four
    subscripts of the loop find the sample's four values, whatever else
    the entry holds. *)
Definition reads_as (entry : pyval) (x : sample) : Prop :=
  ∃ main wind weather first,
    getitem entry "main" = Ok main
    ∧ getitem main "temp" = Ok (PNum (temperature x))
    ∧ getitem main "humidity" = Ok (PNum (humidity x))
    ∧ getitem entry "wind" = Ok wind
    ∧ getitem wind "speed" = Ok (PNum (wind_speed x))
    ∧ getitem entry "weather" = Ok weather
    ∧ getitem0 weather = Ok first
    ∧ getitem first "main" = Ok (PStr (condition x)).

(** A [weather_data] dictionary whose 'list' holds entries that read as
    the given samples. *)
Definition is_forecast_set (weather_data : pyval) (xs : list sample) : Prop :=
  ∃ d entries,
    weather_data = PDict d ∧ d !! "list" = Some (PList entries)
    ∧ Forall2 reads_as entries xs.

(** What the class of [prometheus_client] raises when called with one
    argument. *)
Definition prometheus_arity_error : exn :=
  TypeError "missing 1 required positional argument: 'documentation'".

(** The three-entry forecast of the end-to-end example: temperatures 10,
    12, 14, humidities 50, 60, 70, wind speeds 1, 2, 3 and conditions
    Rain, Rain, Clear. *)
Definition sample_of (t h w : Z) (c : string) : sample :=
  {| temperature := Q2Qc (inject_Z t); humidity := Q2Qc (inject_Z h);
     wind_speed := Q2Qc (inject_Z w); condition := c |}.

Definition three_entries : list sample :=
  [sample_of 10 50 1 "Rain"; sample_of 12 60 2 "Rain"; sample_of 14 70 3 "Clear"].

(** The distinct labels of a sequence, in the order in which each is
    first met. *)
Fixpoint first_seen (l : list string) : list string :=
  match l with
  | [] => []
  | x :: l' => x :: filter (λ y, y ≠ x) (first_seen l')
  end.

(** How often a label occurs. *)
Definition occurrences (x : string) (l : list string) : nat := length (filter (λ y, y = x) l).

(** The counter a sequence of labels leaves behind. *)
Definition tally (l : list string) : counts := (λ k, (PStr k, occurrences k l)) <$> first_seen l.

(** What is left to run once the loop is reached, the state in which it
    is reached, and the state in which the metrics server is started. *)
Definition loop_todo : list stmt := drop 11 module_body.

Definition state_at_server : state :=
  Eval vm_compute in config_state (run an_import 10 start).

Definition state_at_loop : state :=
  Eval vm_compute in config_state (run an_import 11 start).

Definition globals_at_loop : gmap string pyobj := globals state_at_loop.

(** The loop has been reached and never left. *)
Definition looping (c : config) : Prop :=
  ∃ s, c = Running loop_todo s ∧ globals s = globals_at_loop ∧ app_calls s = 0.

(** The metrics server could not start, and the run ended there. *)
Definition crashed_before_loop (c : config) : Prop :=
  ∃ e s, c = Crashed e s ∧ globals s !! "single_page_app" = None ∧ app_calls s = 0.

(** A complete suggestion, and the same one with a sixth entry. *)
Definition a_wardrobe : gmap string pyval :=
  {[ "Top" := PStr "T-shirt"; "Bottom" := PStr "Shorts";
     "Footwear" := PStr "Sandals"; "Outerwear" := PStr "None";
     "Accessories" := PStr "Sunglasses" ]}.

(** The same suggestion without its outerwear. *)
Definition no_outerwear : gmap string pyval := delete "Outerwear" a_wardrobe.

(** The request that [send_request] issues for a method it knows. *)
Definition request_for (url method : string) (json_data : option (gmap string field))
    : request :=
  if bool_decide (method = "GET")
  then {| req_method := "GET"; req_url := url; req_json := None; req_headers := [] |}
  else {| req_method := "POST"; req_url := url; req_json := json_data;
          req_headers := [("Content-Type", "application/json")] |}.

(** The world after one more exchange, and after one more event. *)
Definition with_exchange (w : world) (rq : request) : world :=
  {| page := page w; exchanges := exchanges w ++ [rq];
     session_state := session_state w; sleeps := sleeps w |}.

Definition with_event (w : world) (ev : ui_event) : world :=
  {| page := page w ++ [ev]; exchanges := exchanges w;
     session_state := session_state w; sleeps := sleeps w |}.

(** What [send_request] takes for a failure of the exchange: a failure of
    the transport, or a 4xx or 5xx status. *)
Definition failure_of (x : exchange) : option request_failure :=
  match x with
  | Failed f => Some f
  | Replied r =>
      if bool_decide (400 ≤ status_code r < 600)%Z then Some (HTTPError (status_code r))
      else None
  end.

(** A network on which every exchange times out, and one that answers
    every request with "304 Not Modified". *)
Definition always_timeout : nat → request → exchange := λ _ _, Failed RequestTimeout.

Definition not_modified : response :=
  {| status_code := 304; text := ""; json_body := None |}.

Definition always_304 : nat → request → exchange := λ _ _, Replied not_modified.

(** What a loading bar puts on the page. *)
Definition progress_events (message : string) (total : nat) : list ui_event :=
  StProgress 0 message
    :: ((λ percent, StProgress (percent + 1) message) <$> seq 0 total)
    ++ [StProgressEmpty].

(** The world once the session state is updated and the first loading
    bar is through: where the weather request is sent from. *)
Definition ready_to_fetch (i : inputs) (w : world) : world :=
  {| page := page w ++ progress_events "Fetching Weather Information" 100;
     exchanges := exchanges w;
     session_state :=
       <["submitted" := PBool true]>
         (<["location" := PStr (location i)]>
            (<["activity_type" := PStr (type_label (chosen_type i))]>
               (<["activity_level" := PStr (level_label (chosen_level i))]>
                  (session_state w))));
     sleeps := sleeps w + 100 |}.

Definition with_events (w : world) (evs : list ui_event) : world :=
  {| page := page w ++ evs; exchanges := exchanges w;
     session_state := session_state w; sleeps := sleeps w |}.

Definition weather_request (i : inputs) : request :=
  request_for (weather_endpoint +:+ location i) "GET" None.

(** A press of the button for Low, Formal, "London" on a network where
    every exchange times out. *)
Definition london : inputs :=
  {| chosen_level := Low; chosen_type := Formal; location := "London";
     submit_pressed := true |}.

End Statements.
Export Statements.

(* ===================================================================== *)
(** ** Further vocabulary                                                 *)
(* ===================================================================== *)

Module MoreStatements.

(** A forecast entry with readings but an empty 'weather' list. *)
Definition dry_entry : gmap string pyval :=
  {[ "main" := PDict {[ "temp" := PNum 1%Qc; "humidity" := PNum 1%Qc ]};
     "wind" := PDict {[ "speed" := PNum 1%Qc ]};
     "weather" := PList [] ]}.

(** A reply without "Footwear" and without "Accessories". *)
Definition barefoot : gmap string pyval :=
  delete "Footwear" (delete "Accessories" a_wardrobe).

(** The percentage a progress event shows. *)
Definition percent_shown (ev : ui_event) : option nat :=
  match ev with
  | StProgress percent _ => Some percent
  | _ => None
  end.

Definition error_shown (ev : ui_event) : option message :=
  match ev with
  | StError m => Some m
  | _ => None
  end.

(** What every run puts on the page before it looks at the button. *)
Definition page_head : list ui_event :=
  [StTitle "Weather 2 Wear"; StStyle; StHeader "Tell me about you!";
   StText "Select your activity preferences and location (use a postcode or name)"].

(** The world in which a submission sends its weather request, and the
    world in which it looks at the answer. *)
Definition at_weather_fetch (i : inputs) (w : world) : world :=
  ready_to_fetch i (with_events w page_head).

Definition after_weather_fetch (i : inputs) (w : world) : world :=
  with_exchange (at_weather_fetch i w) (weather_request i).

(** Three replies of the weather endpoint with the status 200: a page
    that is not JSON, the JSON object without any key, and the three
    entries of the example. *)
Definition not_json : response :=
  {| status_code := 200; text := "<html>Service unavailable</html>"; json_body := None |}.

Definition empty_object : response :=
  {| status_code := 200; text := "{}"; json_body := Some (PDict ∅) |}.

Definition three_entries_reply : response :=
  {| status_code := 200; text := "";
     json_body := Some (forecast_set three_entries) |}.

(** The world in which the recommendation request is sent, and the
    request itself. *)
Definition at_recommendation (w : world) : world :=
  {| page := page w ++ progress_events "Generating Outfit Suggestions" 100;
     exchanges := exchanges w; session_state := session_state w;
     sleeps := sleeps w + 100 |}.

Definition recommendation_request (i : inputs) (s : summary) : request :=
  request_for lambda_url "POST" (Some (aggregated_data i s)).

Definition after_recommendation (i : inputs) (s : summary) (w : world) : world :=
  with_exchange (at_recommendation w) (recommendation_request i s).

(** Whether a text is ASCII: every byte below 128. *)
Fixpoint is_ascii (s : string) : bool :=
  match s with
  | EmptyString => true
  | String c s' => (Ascii.nat_of_ascii c <? 128) && is_ascii s'
  end.

(** What [display_forecasts] reads from one forecast entry: the
    timestamp and, for each of the three sections that the entry has,
    the values the section shows. *)
Record reading := {
  r_dt_txt : pyval;
  r_weather : option (pyval * string * pyval);   (* main, description, icon *)
  r_main : option (pyval * pyval);               (* temp, humidity *)
  r_wind : option pyval                          (* speed *)
}.

Definition shows_as (entry : pyval) (x : reading) : Prop :=
  ∃ d,
    entry = PDict d
    ∧ d !! "dt_txt" = Some (r_dt_txt x)
    ∧ match r_weather x with
      | None => d !! "weather" = None
      | Some (main, description, icon) =>
          ∃ conditions weather,
            d !! "weather" = Some conditions ∧ getitem0 conditions = Ok weather
            ∧ getitem weather "icon" = Ok icon ∧ getitem weather "main" = Ok main
            ∧ getitem weather "description" = Ok (PStr description)
            ∧ is_ascii description = true
      end
    ∧ match r_main x with
      | None => d !! "main" = None
      | Some (temp, humidity) =>
          ∃ main,
            d !! "main" = Some main ∧ getitem main "temp" = Ok temp
            ∧ getitem main "humidity" = Ok humidity
      end
    ∧ match r_wind x with
      | None => d !! "wind" = None
      | Some speed =>
          ∃ wind, d !! "wind" = Some wind ∧ getitem wind "speed" = Ok speed
      end.

(** What one entry puts on the page. *)
Definition forecast_events (py_str : pyval → string) (x : reading) : list ui_event :=
  StExpander ("Details for " +:+ py_str (r_dt_txt x))
  :: match r_weather x with
     | Some (main, description, icon) =>
         [StForecastWeather main (capitalize description)
            (get_weather_icon_html py_str icon)]
     | None => []
     end
  ++ match r_main x with
     | Some (temp, humidity) => [StForecastTemperature temp; StForecastHumidity humidity]
     | None => []
     end
  ++ match r_wind x with
     | Some speed => [StForecastWind speed]
     | None => []
     end.

Definition forecasts_heading : ui_event :=
  StSubheader "Three Hourly Forecasts (Click to Expand)".

(** A forecast entry of the weather endpoint with all its sections, and
    one that holds a timestamp only. *)
Definition noon_entry : pyval :=
  PDict {[ "dt_txt" := PStr "2024-05-01 12:00:00";
           "main" := PDict {[ "temp" := PNum (Q2Qc 12); "humidity" := PNum (Q2Qc 60) ]};
           "wind" := PDict {[ "speed" := PNum (Q2Qc 2) ]};
           "weather" := PList [PDict {[ "main" := PStr "Rain";
                                        "description" := PStr "light rain";
                                        "icon" := PStr "10d" ]}] ]}.

Definition noon_reading : reading :=
  {| r_dt_txt := PStr "2024-05-01 12:00:00";
     r_weather := Some (PStr "Rain", "light rain", PStr "10d");
     r_main := Some (PNum (Q2Qc 12), PNum (Q2Qc 60));
     r_wind := Some (PNum (Q2Qc 2)) |}.

(** An entry with a timestamp and a temperature, but no humidity. *)
Definition half_entry : gmap string pyval :=
  {[ "dt_txt" := PStr "2024-05-01 18:00:00";
     "main" := PDict {[ "temp" := PNum (Q2Qc 9) ]} ]}.

(** A summary to post, and three answers of the recommendation endpoint:
    a complete wardrobe, one without outerwear, and "201 Created". *)
Definition mild : summary :=
  {| avg_temp := Fin (Q2Qc 12); avg_humidity := Fin (Q2Qc 60);
     avg_wind_speed := Fin (Q2Qc 2); most_common_weather := PStr "Rain" |}.

Definition wardrobe_reply : response :=
  {| status_code := 200; text := ""; json_body := Some (PDict a_wardrobe) |}.

Definition no_outerwear_reply : response :=
  {| status_code := 200; text := ""; json_body := Some (PDict no_outerwear) |}.

Definition created : response :=
  {| status_code := 201; text := "Created"; json_body := None |}.

Definition recommendations_heading : ui_event :=
  StSubheader "AI Generated Clothing Recommendations".

(** What a loading bar with a total above 100 gets onto the page. *)
Definition progress_events_cut_short (message : string) : list ui_event :=
  StProgress 0 message :: ((λ percent, StProgress (percent + 1) message) <$> seq 0 100).

End MoreStatements.
Export MoreStatements.

(* ===================================================================== *)
(** ** Facts about the aggregator                                         *)
(* ===================================================================== *)

Section AggregatorFacts.

Implicit Types (x : sample) (xs : list sample) (acc : series) (entries : list pyval).

Lemma reads_as_forecast_entry x : reads_as (forecast_entry x) x.
Proof.
  exists (PDict {[ "temp" := PNum (temperature x); "humidity" := PNum (humidity x) ]}),
         (PDict {[ "speed" := PNum (wind_speed x) ]}),
         (PList [PDict {[ "main" := PStr (condition x) ]}]),
         (PDict {[ "main" := PStr (condition x) ]}).
  split_and!; reflexivity.
Qed.

Lemma forecast_set_is_forecast_set xs : is_forecast_set (forecast_set xs) xs.
Proof.
  eexists _, (forecast_entry <$> xs). split_and!; [reflexivity..|].
  induction xs as [|x xs IH]; constructor; [apply reads_as_forecast_entry|exact IH].
Qed.

(** The loop appends one value per entry to each of the four lists. *)
Lemma collect_entries entries xs acc :
  Forall2 reads_as entries xs →
  collect entries acc = Ok (series_app acc (series_of xs)).
Proof.
  intros Hread. revert acc.
  induction Hread as [|entry x entries xs Hx _ IH]; intros acc.
  - destruct acc; unfold series_app; simpl. by rewrite !app_nil_r.
  - destruct Hx as (main & wind & weather & first & Hm & Ht & Hh & Hw & Hs & Hc & Hf & Hl).
    cbn [collect]. rewrite Hm. cbn [mbind result_bind]. rewrite Ht, Hh, Hw.
    cbn [mbind result_bind]. rewrite Hs, Hc. cbn [mbind result_bind]. rewrite Hf.
    cbn [mbind result_bind]. rewrite Hl. cbn [mbind result_bind].
    rewrite IH. unfold series_app; simpl. by rewrite <- !app_assoc.
Qed.

Lemma as_numbers_PNum {A} (f : A → Qc) (l : list A) :
  as_numbers ((λ a, PNum (f a)) <$> l) = Some (f <$> l).
Proof. induction l as [|a l IH]; [done|]. csimpl. by rewrite IH. Qed.

(** On a non-empty list of numbers [np.mean] is the arithmetic mean. *)
Lemma np_mean_numbers {A} (f : A → Qc) (a : A) (l : list A) :
  np_mean ((λ a, PNum (f a)) <$> (a :: l)) = Ok (Fin (arithmetic_mean (f <$> (a :: l)))).
Proof. unfold np_mean. by rewrite as_numbers_PNum. Qed.

(** On the empty list it is [nan], and nothing is raised. *)
Lemma np_mean_empty : np_mean [] = Ok NaN.
Proof. reflexivity. Qed.

Lemma module_np g (vs : list pyval) :
  g !! "np" = Some (ModuleObj "numpy") → call_np_mean g vs = np_mean vs.
Proof. intros H. unfold call_np_mean. by rewrite H. Qed.

Lemma module_globals_np : module_globals !! "np" = Some (ModuleObj "numpy").
Proof. reflexivity. Qed.

(** The name [Counter] is bound twice (source lines 7 and 9); the second
    binding is the one in force. *)
Lemma module_globals_Counter : module_globals !! "Counter" = Some PrometheusCounter.
Proof. reflexivity. Qed.

Lemma averages_of_samples g x xs :
  g !! "np" = Some (ModuleObj "numpy") →
  averages g (series_of (x :: xs))
  = Ok (Fin (arithmetic_mean (temperature <$> (x :: xs))),
        Fin (arithmetic_mean (humidity <$> (x :: xs))),
        Fin (arithmetic_mean (wind_speed <$> (x :: xs)))).
Proof.
  intros Hnp. unfold averages, series_of.
  cbn [temps humidities wind_speeds].
  rewrite !(module_np g _ Hnp), !np_mean_numbers. reflexivity.
Qed.

(** On a ForecastSet the function is its last two steps applied to the
    series of the samples. *)
Lemma process_forecast_set g weather_data xs :
  is_forecast_set weather_data xs →
  process_weather_data g weather_data
  = (avgs ← averages g (series_of xs);
     label ← Counter_most_common g (weather_main_conditions (series_of xs));
     Ok {| avg_temp := avgs.1.1; avg_humidity := avgs.1.2;
           avg_wind_speed := avgs.2; most_common_weather := label |}).
Proof.
  intros (d & entries & -> & Hlist & Hread).
  unfold process_weather_data. cbn [getitem]. rewrite Hlist.
  cbn [mbind result_bind py_iter]. rewrite (collect_entries entries xs) by done.
  reflexivity.
Qed.

Lemma Counter_most_common_module l :
  Counter_most_common module_globals l = Raise prometheus_arity_error.
Proof. reflexivity. Qed.

(** In the module's own namespace the function raises whatever the
    samples are, the empty set included. *)
Lemma process_weather_data_raises_in_module weather_data xs :
  is_forecast_set weather_data xs →
  process_weather_data module_globals weather_data = Raise prometheus_arity_error.
Proof.
  intros Hset. rewrite (process_forecast_set _ _ xs Hset). destruct xs as [|x xs].
  - reflexivity.
  - rewrite averages_of_samples by apply module_globals_np. reflexivity.
Qed.

End AggregatorFacts.

(** C1. For a non-empty ForecastSet the three averages that
    [process_weather_data] computes (source lines 159-161) are the
    arithmetic means of the temperatures, humidities and wind speeds, but
    they are never output: in the module's namespace the call
    [Counter(weather_main_conditions)] on the next line raises a
    [TypeError], and the function returns nothing. *)
Theorem process_weather_data_means_computed_never_returned
    (weather_data : pyval) (x : sample) (xs : list sample) :
  is_forecast_set weather_data (x :: xs) →
  averages module_globals (series_of (x :: xs))
  = Ok (Fin (arithmetic_mean (temperature <$> (x :: xs))),
        Fin (arithmetic_mean (humidity <$> (x :: xs))),
        Fin (arithmetic_mean (wind_speed <$> (x :: xs))))
  ∧ process_weather_data module_globals weather_data = Raise prometheus_arity_error.
Proof.
  intros Hset. split.
  - apply averages_of_samples, module_globals_np.
  - by apply (process_weather_data_raises_in_module weather_data (x :: xs)).
Qed.

(** C1 at the three entries of the end-to-end example. *)
Lemma process_weather_data_means_computed_never_returned_witness :
  averages module_globals (series_of three_entries)
  = Ok (Fin (arithmetic_mean (temperature <$> three_entries)),
        Fin (arithmetic_mean (humidity <$> three_entries)),
        Fin (arithmetic_mean (wind_speed <$> three_entries)))
  ∧ process_weather_data module_globals (forecast_set three_entries)
    = Raise prometheus_arity_error.
Proof.
  apply (process_weather_data_means_computed_never_returned
           (forecast_set three_entries) (sample_of 10 50 1 "Rain")
           [sample_of 12 60 2 "Rain"; sample_of 14 70 3 "Clear"]).
  apply forecast_set_is_forecast_set.
Defined.

(* ===================================================================== *)
(** ** The label [collections.Counter] would choose                       *)
(* ===================================================================== *)

Section CollectionsCounterFacts.

Implicit Types (x y m : string) (l pre ks : list string) (c : counts).

Lemma filter_keeps_all (P : string → Prop) `{!∀ y, Decision (P y)} l :
  (∀ y, y ∈ l → P y) → filter P l = l.
Proof.
  induction l as [|x l IH]; intros HP; [done|].
  rewrite filter_cons_True by (apply HP; left).
  f_equal. apply IH. intros y Hy. apply HP. by right.
Qed.

Lemma elem_of_first_seen y l : y ∈ first_seen l ↔ y ∈ l.
Proof.
  induction l as [|x l IH]; [done|]. cbn [first_seen].
  rewrite !elem_of_cons, list_elem_of_filter, IH.
  destruct (decide (y = x)); tauto.
Qed.

Lemma NoDup_first_seen l : NoDup (first_seen l).
Proof.
  induction l as [|x l IH]; [constructor|]. cbn [first_seen].
  constructor.
  - rewrite list_elem_of_filter. tauto.
  - by apply NoDup_filter.
Qed.

Lemma first_seen_app l l' :
  first_seen (l ++ l') = first_seen l ++ filter (λ y, y ∉ l) (first_seen l').
Proof.
  induction l as [|x l IH]; cbn [first_seen app].
  - symmetry. apply filter_keeps_all. intros ? _. apply not_elem_of_nil.
  - rewrite IH, filter_app. f_equal. f_equal.
    rewrite list_filter_filter. apply list_filter_iff.
    intros y. rewrite not_elem_of_cons. tauto.
Qed.

Lemma occurrences_snoc k l x :
  occurrences k (l ++ [x]) = if decide (k = x) then S (occurrences k l) else occurrences k l.
Proof.
  unfold occurrences. rewrite filter_app, length_app.
  rewrite filter_cons, filter_nil.
  destruct (decide (x = k)) as [->|Hne].
  - rewrite decide_True by done. simpl. lia.
  - rewrite decide_False by congruence. simpl. lia.
Qed.

Lemma occurrences_not_in x l : x ∉ l → occurrences x l = 0.
Proof.
  induction l as [|y l IH]; [done|].
  rewrite not_elem_of_cons. intros [Hne Hx]. unfold occurrences.
  rewrite filter_cons_False by congruence. by apply IH.
Qed.

Lemma occurrences_in x l : x ∈ l → 0 < occurrences x l.
Proof.
  induction l as [|y l IH]; [by intros ?%elem_of_nil|].
  unfold occurrences. rewrite filter_cons.
  destruct (decide (y = x)); [simpl; lia|].
  rewrite elem_of_cons. intros [->|Hx]; [done|]. by apply IH.
Qed.

(** One more item: the count of a key already present goes up by one in
    place, a new key goes to the end with count 1. *)
Lemma count_one_keys (n : string → nat) x ks :
  NoDup ks →
  count_one (PStr x) ((λ k, (PStr k, n k)) <$> ks)
  = if decide (x ∈ ks)
    then (λ k, (PStr k, if decide (k = x) then S (n k) else n k)) <$> ks
    else ((λ k, (PStr k, n k)) <$> ks) ++ [(PStr x, 1)].
Proof.
  induction ks as [|k ks IH]; intros Hnd; [done|].
  apply NoDup_cons in Hnd as [Hk Hnd].
  cbn [fmap list_fmap count_one key_eqb].
  destruct (decide (k = x)) as [->|Hne].
  - rewrite bool_decide_true by done.
    rewrite decide_True by left. f_equal.
    apply list_fmap_ext. intros i k Hik.
    rewrite decide_False; [done|].
    intros ->. apply Hk. by eapply list_elem_of_lookup_2.
  - rewrite bool_decide_false by done.
    change (list_fmap _ _ ?f ks) with (f <$> ks). rewrite (IH Hnd).
    destruct (decide (x ∈ ks)) as [Hin|Hnin].
    + rewrite decide_True by (by right). done.
    + rewrite decide_False; [done|]. rewrite elem_of_cons. intros [?|?]; congruence.
Qed.

Lemma count_one_tally x l : count_one (PStr x) (tally l) = tally (l ++ [x]).
Proof.
  unfold tally. rewrite count_one_keys by apply NoDup_first_seen.
  rewrite first_seen_app. cbn [first_seen filter].
  destruct (decide (x ∈ first_seen l)) as [Hin|Hnin].
  - rewrite filter_cons_False, filter_nil, app_nil_r
      by (rewrite <- elem_of_first_seen; tauto).
    apply list_fmap_ext. intros i k _. by rewrite occurrences_snoc.
  - rewrite filter_cons_True, filter_nil by (by rewrite <- elem_of_first_seen).
    rewrite fmap_app. f_equal.
    + apply list_fmap_ext. intros i k Hk. rewrite occurrences_snoc.
      rewrite decide_False; [done|]. intros ->. apply Hnin.
      by eapply list_elem_of_lookup_2.
    + cbn. rewrite occurrences_snoc, decide_True by done.
      rewrite occurrences_not_in; [done|]. by rewrite <- elem_of_first_seen.
Qed.

Lemma count_elements_tally l pre :
  count_elements (PStr <$> l) (tally pre) = Ok (tally (pre ++ l)).
Proof.
  revert pre. induction l as [|x l IH]; intros pre.
  - by rewrite app_nil_r.
  - cbn [fmap list_fmap count_elements hashable].
    change (list_fmap _ _ PStr l) with (PStr <$> l).
    rewrite count_one_tally, IH. by rewrite <- app_assoc.
Qed.

(** [max] keeps the first of the items with the greatest count. *)
Lemma max_by_count_first (best : pyval * nat) c :
  ∃ c1 c2, best :: c = c1 ++ max_by_count best c :: c2
    ∧ (∀ e, e ∈ c1 → e.2 < (max_by_count best c).2)
    ∧ (∀ e, e ∈ c2 → e.2 ≤ (max_by_count best c).2).
Proof.
  revert best. induction c as [|x c IH]; intros best.
  - exists [], []. split_and!; [done|by intros ? ?%elem_of_nil..].
  - cbn [max_by_count]. destruct (Nat.ltb_spec best.2 x.2) as [Hlt|Hge].
    + destruct (IH x) as (c1 & c2 & Heq & H1 & H2).
      exists (best :: c1), c2. split_and!; [by rewrite Heq| |done].
      intros e [->|He]%elem_of_cons; [|by apply H1].
      assert (x ∈ c1 ++ max_by_count x c :: c2) as Hx by (rewrite <- Heq; left).
      apply elem_of_app in Hx as [Hx|Hx]; [specialize (H1 _ Hx); lia|].
      apply elem_of_cons in Hx as [<-|Hx]; [lia|]. specialize (H2 _ Hx). lia.
    + destruct (IH best) as (c1 & c2 & Heq & H1 & H2).
      destruct c1 as [|b c1].
      * injection Heq as Hb Hc. exists [], (x :: c2).
        split_and!; [by rewrite <- Hb, <- Hc|by intros ? ?%elem_of_nil|].
        intros e [->|He]%elem_of_cons; [rewrite <- Hb; lia|by apply H2].
      * injection Heq as Hb Hc. subst b. exists (best :: x :: c1), c2.
        split_and!; [simpl; by rewrite <- Hc| |done].
        assert (best.2 < (max_by_count best c).2) by (apply H1; left).
        intros e [->|[->|He]%elem_of_cons]%elem_of_cons; [lia..|].
        apply H1. by right.
Qed.

Lemma first_split_unique m (a b a' b' : list string) :
  m ∉ a → m ∉ a' → a ++ m :: b = a' ++ m :: b' → a = a'.
Proof.
  revert a'. induction a as [|k a IH]; intros [|k' a'] Ha Ha' Heq.
  - done.
  - injection Heq as -> _. exfalso. apply Ha'. left.
  - injection Heq as -> _. exfalso. apply Ha. left.
  - injection Heq as -> Heq. f_equal.
    apply not_elem_of_cons in Ha as [_ Ha]. apply not_elem_of_cons in Ha' as [_ Ha'].
    by apply IH.
Qed.

(** With [collections.Counter], the label returned for a non-empty
    sequence has the highest count, and every label met before its first
    occurrence has a strictly smaller count: of several labels with the
    highest count, the first in the sequence is returned. *)
Lemma collections_most_common_first_of_highest x l :
  ∃ m l1 l2,
    collections_most_common (PStr <$> (x :: l)) = Ok (PStr m)
    ∧ x :: l = l1 ++ m :: l2 ∧ (m ∉ l1)
    ∧ (∀ y, occurrences y (x :: l) ≤ occurrences m (x :: l))
    ∧ (∀ y, y ∈ l1 → occurrences y (x :: l) < occurrences m (x :: l)).
Proof.
  unfold collections_most_common.
  change (count_elements (PStr <$> (x :: l)) []) with (count_elements (PStr <$> (x :: l)) (tally [])).
  rewrite count_elements_tally, app_nil_l. cbn [mbind result_bind].
  set (L := x :: l).
  destruct (tally L) as [|first rest] eqn:Htally; [done|].
  cbn [most_common_1].
  destruct (max_by_count_first first rest) as (c1 & c2 & Heq & Hbefore & Hafter).
  rewrite <- Htally in Heq. unfold tally in Heq.
  apply fmap_app_inv in Heq as (k1 & k' & -> & Hk' & Hseen).
  symmetry in Hk'. apply fmap_cons_inv in Hk' as (m & k2 & Hm & -> & ->).
  rewrite Hm. cbn [fst].
  assert (m ∈ L) as HmL.
  { apply elem_of_first_seen. rewrite Hseen. apply elem_of_app. right. left. }
  destruct (list_elem_of_split_l _ _ HmL) as (l1 & l2 & HL & Hml1).
  exists m, l1, l2. split_and!; [done..| |].
  - intros y. destruct (decide (y ∈ L)) as [Hy|Hy];
      [|rewrite (occurrences_not_in y L Hy); lia].
    apply elem_of_first_seen in Hy. rewrite Hseen in Hy.
    apply elem_of_app in Hy as [Hy|[->|Hy]%elem_of_cons]; [| lia |].
    + specialize (Hbefore (PStr y, occurrences y L)). rewrite Hm in Hbefore.
      cbn in Hbefore. apply Nat.lt_le_incl, Hbefore.
      by apply (list_elem_of_fmap_2 (λ k, (PStr k, occurrences k L))).
    + specialize (Hafter (PStr y, occurrences y L)). rewrite Hm in Hafter.
      cbn in Hafter. apply Hafter.
      by apply (list_elem_of_fmap_2 (λ k, (PStr k, occurrences k L))).
  - intros y Hy.
    assert (k1 = first_seen l1) as ->.
    { pose proof (NoDup_first_seen L) as Hnd. rewrite Hseen in Hnd.
      apply NoDup_app in Hnd as (_ & Hk1 & _).
      assert (m ∉ k1) as Hmk1 by (intros ?; eapply Hk1; [done|left]).
      rewrite HL, first_seen_app in Hseen. cbn [first_seen] in Hseen.
      rewrite filter_cons_True in Hseen by done.
      symmetry. eapply first_split_unique; [| |exact Hseen]; [|done].
      by rewrite elem_of_first_seen. }
    specialize (Hbefore (PStr y, occurrences y L)). rewrite Hm in Hbefore.
    cbn in Hbefore. apply Hbefore.
    apply (list_elem_of_fmap_2 (λ k, (PStr k, occurrences k L))).
    by apply elem_of_first_seen.
Qed.

End CollectionsCounterFacts.

Section IntendedAggregator.

Lemma collections_Counter_bound :
  globals_with_collections_Counter !! "Counter" = Some CollectionsCounter.
Proof. reflexivity. Qed.

Lemma collections_np_bound :
  globals_with_collections_Counter !! "np" = Some (ModuleObj "numpy").
Proof. reflexivity. Qed.

Lemma arithmetic_mean_singleton (q : Qc) : arithmetic_mean [q] = q.
Proof.
  unfold arithmetic_mean, Qc_sum. cbn [foldr length].
  change (Qc_of_nat 1) with 1%Qc. rewrite Qcplus_0_r.
  unfold Qcdiv. change (/ 1)%Qc with 1%Qc. apply Qcmult_1_r.
Qed.

(** Had [Counter] stayed the class of [collections] (the import on source
    line 7), the function would return, for every non-empty ForecastSet,
    the three arithmetic means and the label with the highest count, the
    first in the sequence among several with that count. *)
Lemma process_weather_data_with_collections_Counter
    (weather_data : pyval) (x : sample) (xs : list sample) :
  is_forecast_set weather_data (x :: xs) →
  let labels := condition <$> (x :: xs) in
  ∃ m l1 l2,
    process_weather_data globals_with_collections_Counter weather_data
    = Ok {| avg_temp := Fin (arithmetic_mean (temperature <$> (x :: xs)));
            avg_humidity := Fin (arithmetic_mean (humidity <$> (x :: xs)));
            avg_wind_speed := Fin (arithmetic_mean (wind_speed <$> (x :: xs)));
            most_common_weather := PStr m |}
    ∧ labels = l1 ++ m :: l2 ∧ (m ∉ l1)
    ∧ (∀ y, occurrences y labels ≤ occurrences m labels)
    ∧ (∀ y, y ∈ l1 → occurrences y labels < occurrences m labels).
Proof.
  intros Hset labels.
  destruct (collections_most_common_first_of_highest (condition x) (condition <$> xs))
    as (m & l1 & l2 & Hm & Hsplit & Hfirst & Hmax & Hbefore).
  exists m, l1, l2. split_and!; [|done..].
  rewrite (process_forecast_set _ _ _ Hset), averages_of_samples
    by apply collections_np_bound.
  cbn [mbind result_bind]. unfold Counter_most_common.
  rewrite collections_Counter_bound. unfold series_of. cbn [weather_main_conditions].
  change (condition x :: (condition <$> xs)) with (condition <$> (x :: xs)) in Hm.
  rewrite <- (list_fmap_compose condition PStr (x :: xs)) in Hm.
  unfold compose in Hm. by rewrite Hm.
Qed.

(** The end-to-end example: nothing in the module's namespace, and the
    summary 12, 60, 2, "Rain" with the class of [collections]. *)
Example three_entries_in_module :
  process_weather_data module_globals (forecast_set three_entries)
  = Raise prometheus_arity_error.
Proof.
  apply (process_weather_data_raises_in_module _ three_entries),
    forecast_set_is_forecast_set.
Qed.

Example three_entries_with_collections_Counter :
  process_weather_data globals_with_collections_Counter (forecast_set three_entries)
  = Ok {| avg_temp := Fin (Q2Qc 12); avg_humidity := Fin (Q2Qc 60);
          avg_wind_speed := Fin (Q2Qc 2); most_common_weather := PStr "Rain" |}.
Proof.
  rewrite (process_forecast_set _ _ _ (forecast_set_is_forecast_set three_entries)).
  unfold three_entries. rewrite averages_of_samples by apply collections_np_bound.
  cbn [mbind result_bind fst snd].
  replace (arithmetic_mean (temperature <$> three_entries)) with (Q2Qc 12)
    by (apply Qc_is_canon; reflexivity).
  replace (arithmetic_mean (humidity <$> three_entries)) with (Q2Qc 60)
    by (apply Qc_is_canon; reflexivity).
  replace (arithmetic_mean (wind_speed <$> three_entries)) with (Q2Qc 2)
    by (apply Qc_is_canon; reflexivity).
  reflexivity.
Qed.

End IntendedAggregator.

(** C2. The most-common-condition output is never produced: the name
    [Counter] is imported twice (source lines 7 and 9) and the class of
    [prometheus_client] is the one in force, so
    [Counter(weather_main_conditions)] raises a [TypeError] for every
    list of labels, and for the conditions [["Rain"; "Clear"]] the function
    returns nothing. With the class of [collections] the same input
    gives ["Rain"]. *)
Theorem most_common_condition_shadowed_Counter (t1 h1 w1 t2 h2 w2 : Qc) :
  let rain := {| temperature := t1; humidity := h1; wind_speed := w1;
                 condition := "Rain" |} in
  let clear := {| temperature := t2; humidity := h2; wind_speed := w2;
                  condition := "Clear" |} in
  (∀ labels, Counter_most_common module_globals labels = Raise prometheus_arity_error)
  ∧ process_weather_data module_globals (forecast_set [rain; clear])
    = Raise prometheus_arity_error
  ∧ most_common_weather
      <$> process_weather_data globals_with_collections_Counter (forecast_set [rain; clear])
    = Ok (PStr "Rain").
Proof.
  intros rain clear. split_and!.
  - intros labels. apply Counter_most_common_module.
  - apply (process_weather_data_raises_in_module _ [rain; clear]),
      forecast_set_is_forecast_set.
  - rewrite (process_forecast_set _ _ _ (forecast_set_is_forecast_set [rain; clear])),
      averages_of_samples by apply collections_np_bound.
    reflexivity.
Qed.

(** C8. For a ForecastSet of exactly one sample the function returns
    nothing in the module's namespace: the shadowed [Counter] raises a
    [TypeError]. With the class of [collections] it returns the sample's
    temperature, humidity and wind speed as the three averages and the
    sample's condition as the label. *)
Theorem single_sample_not_returned (weather_data : pyval) (x : sample) :
  is_forecast_set weather_data [x] →
  process_weather_data module_globals weather_data = Raise prometheus_arity_error
  ∧ process_weather_data globals_with_collections_Counter weather_data
    = Ok {| avg_temp := Fin (temperature x);
            avg_humidity := Fin (humidity x);
            avg_wind_speed := Fin (wind_speed x);
            most_common_weather := PStr (condition x) |}.
Proof.
  intros Hset. split; [by apply (process_weather_data_raises_in_module _ [x])|].
  rewrite (process_forecast_set _ _ _ Hset), averages_of_samples
    by apply collections_np_bound.
  cbn [fmap list_fmap]. rewrite !arithmetic_mean_singleton. reflexivity.
Qed.

(** C8 at the single sample 10 degrees, 50 %, 1 m/s, "Rain". *)
Lemma single_sample_not_returned_witness :
  process_weather_data module_globals (forecast_set [sample_of 10 50 1 "Rain"])
  = Raise prometheus_arity_error
  ∧ process_weather_data globals_with_collections_Counter
      (forecast_set [sample_of 10 50 1 "Rain"])
    = Ok {| avg_temp := Fin (Q2Qc 10); avg_humidity := Fin (Q2Qc 50);
            avg_wind_speed := Fin (Q2Qc 1); most_common_weather := PStr "Rain" |}.
Proof.
  apply (single_sample_not_returned (forecast_set [sample_of 10 50 1 "Rain"])
           (sample_of 10 50 1 "Rain")).
  apply forecast_set_is_forecast_set.
Defined.

(** C3, as the source has it. On a [weather_data] whose 'list' is empty
    the function returns no value, and the failure is none of its own
    making. The loop runs no round; the three means of the empty lists are
    [nan], and [np.mean] raises nothing (source lines 159-161); so the
    call ends as the label lookup of line 162 ends on the empty list,
    with the three [nan] ready. That lookup raises one of Python's own
    exceptions: with the class of [prometheus_client] bound to [Counter],
    as in the module, the [TypeError] of the call [Counter([])]; with the
    class of [collections], the [IndexError] of [most_common(1)[0]]. *)
Theorem empty_forecast_set_raises_builtin (g : gmap string pyobj) (d : gmap string pyval) :
  g !! "np" = Some (ModuleObj "numpy") →
  let weather_data := PDict (<["list" := PList []]> d) in
  averages g no_series = Ok (NaN, NaN, NaN)
  ∧ process_weather_data g weather_data
    = (label ← Counter_most_common g [];
       Ok {| avg_temp := NaN; avg_humidity := NaN; avg_wind_speed := NaN;
             most_common_weather := label |})
  ∧ (g !! "Counter" = Some PrometheusCounter →
     process_weather_data g weather_data = Raise prometheus_arity_error)
  ∧ (g !! "Counter" = Some CollectionsCounter →
     process_weather_data g weather_data = Raise IndexError).
Proof.
  intros Hnp weather_data.
  assert (averages g no_series = Ok (NaN, NaN, NaN)) as Hmeans.
  { unfold averages. cbn [temps humidities wind_speeds no_series].
    rewrite (module_np g [] Hnp), np_mean_empty. reflexivity. }
  assert (process_weather_data g weather_data
          = (label ← Counter_most_common g [];
             Ok {| avg_temp := NaN; avg_humidity := NaN; avg_wind_speed := NaN;
                   most_common_weather := label |})) as Hrun.
  { unfold process_weather_data, weather_data. cbn [getitem].
    rewrite lookup_insert_eq. cbn [mbind result_bind py_iter collect].
    rewrite Hmeans. reflexivity. }
  split_and!; [exact Hmeans|exact Hrun|..].
  - intros Hcounter. rewrite Hrun. unfold Counter_most_common. rewrite Hcounter.
    reflexivity.
  - intros Hcounter. rewrite Hrun. unfold Counter_most_common. rewrite Hcounter.
    reflexivity.
Qed.

(** C3 in the module's own namespace, at the dictionary that holds the
    empty 'list' and nothing else. *)
Lemma empty_forecast_set_raises_builtin_witness :
  averages module_globals no_series = Ok (NaN, NaN, NaN)
  ∧ process_weather_data module_globals (PDict (<["list" := PList []]> ∅))
    = (label ← Counter_most_common module_globals [];
       Ok {| avg_temp := NaN; avg_humidity := NaN; avg_wind_speed := NaN;
             most_common_weather := label |})
  ∧ (module_globals !! "Counter" = Some PrometheusCounter →
     process_weather_data module_globals (PDict (<["list" := PList []]> ∅))
     = Raise prometheus_arity_error)
  ∧ (module_globals !! "Counter" = Some CollectionsCounter →
     process_weather_data module_globals (PDict (<["list" := PList []]> ∅))
     = Raise IndexError).
Proof.
  apply (empty_forecast_set_raises_builtin module_globals ∅).
  exact module_globals_np.
Defined.

(** C3, as the claim states it, fails: on the empty ForecastSet the
    function raises the [TypeError] of the call [Counter([])] in the
    module's namespace, and the [IndexError] of [most_common(1)[0]] where
    [Counter] is the class of [collections]; neither is an exception of
    the aggregator's own. *)
Lemma empty_forecast_set_no_EmptyInputError :
  process_weather_data module_globals (forecast_set []) = Raise prometheus_arity_error
  ∧ exn_name prometheus_arity_error = "TypeError"
  ∧ process_weather_data globals_with_collections_Counter (forecast_set [])
    = Raise IndexError
  ∧ exn_name IndexError = "IndexError".
Proof. split_and!; vm_compute; reflexivity. Qed.

(* ===================================================================== *)
(** ** Facts about the module's top level                                 *)
(* ===================================================================== *)

Section TopLevelFacts.

Variable env : environment.

Lemma run_step_last n c : run env (S n) c = step env (run env n c).
Proof. revert c. induction n as [|n IH]; intros c; [done|]. cbn [run] in *. by rewrite IH. Qed.

Lemma loop_binds_handle_request :
  globals_at_loop !! "handle_request" = Some (Function "handle_request").
Proof. vm_compute. reflexivity. Qed.

Lemma loop_binds_c :
  globals_at_loop !! "c"
  = Some (CounterMetric "my_app_requests" "Total number of requests").
Proof. vm_compute. reflexivity. Qed.

Lemma loop_binds_time : globals_at_loop !! "time" = Some (ModuleObj "time").
Proof. vm_compute. reflexivity. Qed.

Lemma loop_binds_random : globals_at_loop !! "random" = Some (ModuleObj "random").
Proof. vm_compute. reflexivity. Qed.

Lemma loop_lacks_single_page_app : globals_at_loop !! "single_page_app" = None.
Proof. vm_compute. reflexivity. Qed.

(** One round of the loop: the counter goes up by one and the process
    sleeps for the number of seconds drawn. *)
Lemma handle_request_in_loop s :
  globals s = globals_at_loop →
  call0 env "handle_request" s
  = Ok {| globals := globals s;
          metrics := <["my_app_requests" := S (default 0 (metrics s !! "my_app_requests"))]>
                       (metrics s);
          server := server s;
          clock := clock s + randint_1_5 env (draws s);
          draws := S (draws s);
          page_title := page_title s;
          app_calls := app_calls s |}.
Proof.
  intros Hg. unfold call0, lookup_global. rewrite Hg, loop_binds_handle_request.
  cbn [mbind result_bind]. unfold handle_request, lookup_global.
  rewrite Hg, loop_binds_c. cbn [mbind result_bind].
  rewrite loop_binds_time, loop_binds_random. reflexivity.
Qed.

Lemma step_in_loop s :
  step env (Running loop_todo s)
  = continue loop_todo s (call0 env "handle_request" s).
Proof. reflexivity. Qed.

Lemma looping_step c : looping c → looping (step env c).
Proof.
  intros (s & -> & Hg & Happ).
  rewrite step_in_loop, handle_request_in_loop by done.
  eexists. split_and!; [reflexivity|done..].
Qed.

Lemma crashed_step c : crashed_before_loop c → crashed_before_loop (step env c).
Proof. intros (e & s & -> & H). by exists e, s. Qed.

Lemma reaches_loop :
  port_free env = true → run env 11 start = Running loop_todo state_at_loop.
Proof.
  destruct env as [rd pf rm]. cbn [port_free]. intros ->. vm_compute. reflexivity.
Qed.

Lemma server_fails :
  port_free env = false →
  run env 11 start = Crashed (OSError "Address already in use") state_at_server.
Proof.
  destruct env as [rd pf rm]. cbn [port_free]. intros ->. vm_compute. reflexivity.
Qed.

Lemma reaches_loop_or_crashes :
  looping (run env 11 start) ∨ crashed_before_loop (run env 11 start).
Proof.
  destruct (port_free env) eqn:Hport.
  - left. rewrite (reaches_loop Hport). exists state_at_loop.
    split_and!; [reflexivity..|vm_compute; reflexivity].
  - right. rewrite (server_fails Hport). eexists _, state_at_server.
    split_and!; [reflexivity|vm_compute; reflexivity..].
Qed.

Lemma stays_in_loop k :
  looping (run env (11 + k) start) ∨ crashed_before_loop (run env (11 + k) start).
Proof.
  induction k as [|k IH].
  - rewrite Nat.add_0_r. apply reaches_loop_or_crashes.
  - rewrite Nat.add_succ_r, run_step_last.
    destruct IH as [IH|IH]; [left; by apply looping_step|right; by apply crashed_step].
Qed.

(** While port 8000 is free the loop goes on for ever: after [k] rounds
    the counter stands at [k], and between [k] and [5 * k] seconds have
    been slept. *)
Lemma loop_round_count k :
  port_free env = true →
  ∃ s, run env (11 + k) start = Running loop_todo s
       ∧ globals s = globals_at_loop
       ∧ metrics s !! "my_app_requests" = Some k
       ∧ draws s = k
       ∧ k ≤ clock s ≤ 5 * k.
Proof.
  intros Hport. induction k as [|k (s & Hrun & Hg & Hm & Hd & Hc)].
  - rewrite Nat.add_0_r, (reaches_loop Hport). exists state_at_loop.
    split_and!; [reflexivity..|vm_compute; reflexivity|vm_compute; reflexivity|vm_compute; lia].
  - rewrite Nat.add_succ_r, run_step_last, Hrun.
    rewrite step_in_loop, handle_request_in_loop by done.
    eexists. split; [reflexivity|]. cbn [globals metrics draws clock].
    rewrite lookup_insert_eq, Hm, Hd. split_and!; [done..| |].
    + unfold randint_1_5. cbn [default]. lia.
    + unfold randint_1_5. pose proof (Nat.mod_upper_bound (random_draw env k) 5). lia.
Qed.

End TopLevelFacts.

(** C4. The module's top level never finishes its initialisation: the
    unconditional [while True] loop around [handle_request] (source lines
    23-24) runs in front of every definition that follows, so however
    many steps are taken the run is not finished, the name
    [single_page_app] is not bound, and the page controller has not been
    called. *)
Theorem top_level_stuck_in_telemetry_loop (env : environment) (n : nat) :
  is_finished (run env n start) = false
  ∧ globals (config_state (run env n start)) !! "single_page_app" = None
  ∧ app_calls (config_state (run env n start)) = 0.
Proof.
  destruct (Nat.lt_ge_cases n 11) as [Hlt|Hge].
  - do 11 (destruct n as [|n]; [vm_compute; done|]). lia.
  - replace n with (11 + (n - 11)) by lia.
    destruct (stays_in_loop env (n - 11)) as [(s & -> & Hg & Happ)|(e & s & -> & Hg & Happ)].
    + cbn [is_finished config_state]. rewrite Hg.
      split_and!; [done|apply loop_lacks_single_page_app|done].
    + done.
Qed.

(* ===================================================================== *)
(** ** Facts about the presentation formatter                             *)
(* ===================================================================== *)

Section FormatterFacts.

Variable py_str : pyval → string.

Implicit Types (d : gmap string pyval) (k : string).

Lemma elem_of_clothing_slots k :
  k ∈ clothing_slots
  ↔ k = "Top" ∨ k = "Bottom" ∨ k = "Footwear" ∨ k = "Outerwear" ∨ k = "Accessories".
Proof. unfold clothing_slots. rewrite !elem_of_cons, elem_of_nil. tauto. Qed.

(** With the five slots present the markup is built from their values. *)
Lemma format_outfit_suggestions_present d top bottom footwear outerwear accessories :
  d !! "Top" = Some top → d !! "Bottom" = Some bottom →
  d !! "Footwear" = Some footwear → d !! "Outerwear" = Some outerwear →
  d !! "Accessories" = Some accessories →
  format_outfit_suggestions py_str (PDict d)
  = Ok (outfit_markup py_str top bottom footwear outerwear accessories).
Proof.
  intros H1 H2 H3 H4 H5. unfold format_outfit_suggestions. cbn [getitem].
  by rewrite H1, H2, H3, H4, H5.
Qed.

(** The function returns exactly when the five slots are present, and
    otherwise raises the [KeyError] of the first slot that is absent. *)
Lemma format_outfit_suggestions_cases d :
  (∃ top bottom footwear outerwear accessories,
      d !! "Top" = Some top ∧ d !! "Bottom" = Some bottom
      ∧ d !! "Footwear" = Some footwear ∧ d !! "Outerwear" = Some outerwear
      ∧ d !! "Accessories" = Some accessories
      ∧ format_outfit_suggestions py_str (PDict d)
        = Ok (outfit_markup py_str top bottom footwear outerwear accessories))
  ∨ (∃ k, k ∈ clothing_slots ∧ d !! k = None
          ∧ format_outfit_suggestions py_str (PDict d) = Raise (KeyError k)).
Proof.
  unfold format_outfit_suggestions. cbn [getitem].
  destruct (d !! "Top") as [top|] eqn:H1;
    [|right; exists "Top"; rewrite elem_of_clothing_slots; auto].
  destruct (d !! "Bottom") as [bottom|] eqn:H2;
    [|right; exists "Bottom"; rewrite elem_of_clothing_slots; auto 6].
  destruct (d !! "Footwear") as [footwear|] eqn:H3;
    [|right; exists "Footwear"; rewrite elem_of_clothing_slots; auto 6].
  destruct (d !! "Outerwear") as [outerwear|] eqn:H4;
    [|right; exists "Outerwear"; rewrite elem_of_clothing_slots; auto 7].
  destruct (d !! "Accessories") as [accessories|] eqn:H5;
    [|right; exists "Accessories"; rewrite elem_of_clothing_slots; auto 8].
  left. by exists top, bottom, footwear, outerwear, accessories.
Qed.

(** A reply without "Outerwear" but with the three slots read before it
    fails on that key. *)
Lemma format_outfit_suggestions_missing_outerwear d top bottom footwear :
  d !! "Top" = Some top → d !! "Bottom" = Some bottom →
  d !! "Footwear" = Some footwear → d !! "Outerwear" = None →
  format_outfit_suggestions py_str (PDict d) = Raise (KeyError "Outerwear").
Proof.
  intros H1 H2 H3 H4. unfold format_outfit_suggestions. cbn [getitem].
  by rewrite H1, H2, H3, H4.
Qed.

End FormatterFacts.

(** C7. For every suggestions dictionary that lacks at least one of the
    five clothing-slot keys, [format_outfit_suggestions] fails with the
    [KeyError] of an absent slot and so returns no markup at all; for
    every dictionary that has all five keys it returns the markup. Neither
    happens in any other case. *)
Theorem format_outfit_suggestions_missing_field
    (py_str : pyval → string) (d : gmap string pyval) :
  ((∃ k, k ∈ clothing_slots ∧ d !! k = None)
   ↔ ∃ k, k ∈ clothing_slots ∧ d !! k = None
          ∧ format_outfit_suggestions py_str (PDict d) = Raise (KeyError k))
  ∧ ((∀ k, k ∈ clothing_slots → is_Some (d !! k))
     ↔ ∃ html, format_outfit_suggestions py_str (PDict d) = Ok html).
Proof.
  destruct (format_outfit_suggestions_cases py_str d)
    as [(top & bottom & footwear & outerwear & accessories
         & H1 & H2 & H3 & H4 & H5 & Hok)
       |(k & Hk & Hnone & Hraise)].
  - assert (∀ k, k ∈ clothing_slots → is_Some (d !! k)) as Hall.
    { intros k [->|[->|[->|[->| ->]]]]%elem_of_clothing_slots; eauto. }
    split; split.
    + intros (k & Hk & Hnone). destruct (Hall k Hk) as [v Hv]. congruence.
    + intros (k & _ & _ & Hraise). congruence.
    + eauto.
    + done.
  - split; split.
    + eauto.
    + intros (k' & Hk' & Hnone' & _). eauto.
    + intros Hall. destruct (Hall k Hk) as [v Hv]. congruence.
    + intros [html Hok]. congruence.
Qed.

(** C7 at a reply that lacks "Outerwear". *)
Lemma format_outfit_suggestions_missing_field_witness :
  ∃ k, k ∈ clothing_slots ∧ no_outerwear !! k = None
       ∧ format_outfit_suggestions str_of_text (PDict no_outerwear) = Raise (KeyError k).
Proof.
  apply (proj1 (proj1 (format_outfit_suggestions_missing_field str_of_text no_outerwear))).
  exists "Outerwear". split; [apply elem_of_clothing_slots; auto|reflexivity].
Defined.

(** C10. The output depends on the five clothing-slot values only: two
    dictionaries that both have the five keys and agree on their values
    give the same string, whatever other keys either of them has. *)
Theorem format_outfit_suggestions_ignores_extra_keys
    (py_str : pyval → string) (d1 d2 : gmap string pyval) :
  (∀ k, k ∈ clothing_slots → is_Some (d1 !! k)) →
  (∀ k, k ∈ clothing_slots → is_Some (d2 !! k)) →
  (∀ k, k ∈ clothing_slots → d1 !! k = d2 !! k) →
  ∃ html, format_outfit_suggestions py_str (PDict d1) = Ok html
          ∧ format_outfit_suggestions py_str (PDict d2) = Ok html.
Proof.
  intros Hd1 _ Hagree.
  destruct (format_outfit_suggestions_cases py_str d1)
    as [(top & bottom & footwear & outerwear & accessories
         & H1 & H2 & H3 & H4 & H5 & Hok)
       |(k & Hk & Hnone & _)].
  - eexists. split; [exact Hok|].
    apply format_outfit_suggestions_present;
      (rewrite <- Hagree; [done|apply elem_of_clothing_slots; auto 8]).
  - destruct (Hd1 k Hk) as [v Hv]. congruence.
Qed.

Lemma a_wardrobe_complete k : k ∈ clothing_slots → is_Some (a_wardrobe !! k).
Proof.
  intros [->|[->|[->|[->| ->]]]]%elem_of_clothing_slots; vm_compute; eauto.
Qed.

(** C10 at a complete reply and the same reply with a "Hat". *)
Lemma format_outfit_suggestions_ignores_extra_keys_witness :
  ∃ html,
    format_outfit_suggestions str_of_text (PDict a_wardrobe) = Ok html
    ∧ format_outfit_suggestions str_of_text (PDict (<["Hat" := PStr "Cap"]> a_wardrobe))
      = Ok html.
Proof.
  apply (format_outfit_suggestions_ignores_extra_keys str_of_text a_wardrobe
           (<["Hat" := PStr "Cap"]> a_wardrobe)).
  - apply a_wardrobe_complete.
  - intros k [->|[->|[->|[->| ->]]]]%elem_of_clothing_slots; vm_compute; eauto.
  - intros k [->|[->|[->|[->| ->]]]]%elem_of_clothing_slots; vm_compute; reflexivity.
Defined.

(* ===================================================================== *)
(** ** Facts about the request client                                     *)
(* ===================================================================== *)

Section ClientFacts.

Variable network : nat → request → exchange.

Implicit Types (url method : string) (json_data : option (gmap string field)) (w : world).

Lemma send_request_known_method url method json_data w :
  method = "GET" ∨ method = "POST" →
  send_request network url method json_data w
  = let rq := request_for url method json_data in
    match network (length (exchanges w)) rq with
    | Failed f =>
        (Ok None,
         with_event (with_exchange w rq) (StError (HttpRequestFailed (RequestException f))))
    | Replied r =>
        if bool_decide (400 ≤ status_code r < 600)%Z
        then (Ok None,
              with_event (with_exchange w rq)
                (StError (HttpRequestFailed (RequestException (HTTPError (status_code r))))))
        else (Ok (Some r), with_exchange w rq)
    end.
Proof.
  intros [-> | ->]; cbv zeta; unfold send_request, try_except, request_for.
  - rewrite !bool_decide_eq_true_2 by done.
    unfold mbind, M_bind, requests_get, perform, mret, M_ret.
    destruct (network _ _) as [r|f]; [|reflexivity].
    unfold raise_for_status. case_bool_decide; reflexivity.
  - rewrite !(bool_decide_eq_false_2 ("POST" = "GET")) by done.
    rewrite !bool_decide_eq_true_2 by done.
    unfold mbind, M_bind, requests_post, perform, mret, M_ret.
    destruct (network _ _) as [r|f]; [|reflexivity].
    unfold raise_for_status. case_bool_decide; reflexivity.
Qed.

(** A failed exchange: [None], after one exchange and one message. *)
Lemma send_request_failure url method json_data w f :
  method = "GET" ∨ method = "POST" →
  failure_of (network (length (exchanges w)) (request_for url method json_data)) = Some f →
  send_request network url method json_data w
  = (Ok None,
     with_event (with_exchange w (request_for url method json_data))
       (StError (HttpRequestFailed (RequestException f)))).
Proof.
  intros Hm Hf. rewrite send_request_known_method by done. cbv zeta.
  destruct (network _ _) as [r|f']; cbn [failure_of] in Hf.
  - case_bool_decide; [|done]. by injection Hf as <-.
  - by injection Hf as <-.
Qed.

Lemma send_request_unknown_method url method json_data w :
  method ≠ "GET" → method ≠ "POST" →
  send_request network url method json_data w = (Raise (UnboundLocalError "response"), w).
Proof.
  intros H1 H2. unfold send_request, try_except.
  cbn [mbind M_bind]. rewrite !bool_decide_eq_false_2 by done. reflexivity.
Qed.

End ClientFacts.

(** C6, as the source has it. For every invocation of [send_request] with
    method 'GET' or 'POST': when the exchange raises a failure of the
    transport, or ends with a 4xx or 5xx status, the call returns [None]
    after exactly one exchange (no retry) and exactly one message; for
    every other status, a 2xx as well as a 1xx or a 3xx, it returns the
    response after exactly one exchange and shows nothing. *)
Theorem send_request_one_attempt
    (network : nat → request → exchange) (url method : string)
    (json_data : option (gmap string field)) (w : world) :
  method = "GET" ∨ method = "POST" →
  let rq := request_for url method json_data in
  let outcome := network (length (exchanges w)) rq in
  (∀ f, failure_of outcome = Some f →
        send_request network url method json_data w
        = (Ok None,
           with_event (with_exchange w rq)
             (StError (HttpRequestFailed (RequestException f)))))
  ∧ (∀ r, outcome = Replied r → ¬ (400 ≤ status_code r < 600)%Z →
          send_request network url method json_data w
          = (Ok (Some r), with_exchange w rq)).
Proof.
  intros Hm rq outcome. split.
  - intros f Hf. by apply send_request_failure.
  - intros r Hr Hstatus. rewrite send_request_known_method by done. cbv zeta.
    fold rq. fold outcome. rewrite Hr. by rewrite bool_decide_eq_false_2.
Qed.

(** C6 at a GET that times out. *)
Lemma send_request_one_attempt_witness :
  send_request always_timeout "https://example.org/" "GET" None empty_world
  = (Ok None,
     {| page := [StError (HttpRequestFailed (RequestException RequestTimeout))];
        exchanges := [{| req_method := "GET"; req_url := "https://example.org/";
                         req_json := None; req_headers := [] |}];
        session_state := ∅; sleeps := 0 |}).
Proof.
  apply (send_request_one_attempt always_timeout "https://example.org/" "GET" None
           empty_world).
  - left. reflexivity.
  - reflexivity.
Defined.

(** C6, as the claim states it, fails: a status that is not a 2xx does
    not always make the call return [None]. On "304 Not Modified" the
    response itself is returned and nothing is shown. *)
Lemma send_request_returns_non_2xx_response :
  ¬ (200 ≤ status_code not_modified < 300)%Z
  ∧ send_request always_304 "https://example.org/" "GET" None empty_world
    = (Ok (Some not_modified),
       {| page := [];
          exchanges := [{| req_method := "GET"; req_url := "https://example.org/";
                           req_json := None; req_headers := [] |}];
          session_state := ∅; sleeps := 0 |}).
Proof. split; [cbn; lia|reflexivity]. Qed.

(** C9. [send_request] reads its local [response] unbound exactly when
    the method is neither 'GET' nor 'POST': for every such method the call
    raises [UnboundLocalError] (which the handler for
    [requests.RequestException] lets through) without any exchange and
    without any message, and for 'GET' and 'POST' it never does. *)
Theorem send_request_unbound_response
    (network : nat → request → exchange) (url method : string)
    (json_data : option (gmap string field)) (w : world) :
  (method ≠ "GET" ∧ method ≠ "POST")
  ↔ send_request network url method json_data w
    = (Raise (UnboundLocalError "response"), w).
Proof.
  split.
  - intros [H1 H2]. by apply send_request_unknown_method.
  - intros Hraise.
    destruct (decide (method = "GET")) as [HG|HG];
      [|destruct (decide (method = "POST")) as [HP|HP]; [|done]].
    + rewrite send_request_known_method in Hraise by auto. cbv zeta in Hraise.
      destruct (network _ _); [case_bool_decide|]; discriminate Hraise.
    + rewrite send_request_known_method in Hraise by auto. cbv zeta in Hraise.
      destruct (network _ _); [case_bool_decide|]; discriminate Hraise.
Qed.

(** C9 at the method 'PUT'. *)
Lemma send_request_unbound_response_witness :
  send_request always_timeout "https://example.org/" "PUT" None empty_world
  = (Raise (UnboundLocalError "response"), empty_world).
Proof.
  apply (proj1 (send_request_unbound_response always_timeout "https://example.org/"
                  "PUT" None empty_world)).
  split; discriminate.
Defined.

(* ===================================================================== *)
(** ** Facts about the page controller                                    *)
(* ===================================================================== *)

Section ControllerFacts.

Variable py_str : pyval → string.
Variable network : nat → request → exchange.
Variable g : gmap string pyobj.

Implicit Types (i : inputs) (w : world) (message : string).

Lemma progress_rounds message (percents : list nat) w :
  Forall (λ percent, percent < 100) percents →
  for_each (λ percent, _ ← sleep_10ms; st_progress (percent + 1) message) percents w
  = (Ok (),
     {| page := page w ++ ((λ percent, StProgress (percent + 1) message) <$> percents);
        exchanges := exchanges w; session_state := session_state w;
        sleeps := sleeps w + length percents |}).
Proof.
  intros Hrange. revert w. induction Hrange as [|p percents Hp _ IH]; intros w.
  - cbn. rewrite app_nil_r, Nat.add_0_r. by destruct w.
  - cbn [for_each]. unfold mbind at 1, M_bind at 1.
    unfold st_progress at 1. rewrite (proj2 (Nat.leb_le (p + 1) 100)) by lia.
    unfold mbind at 1, M_bind at 1, sleep_10ms, emit.
    rewrite IH. cbn [page exchanges session_state sleeps fmap list_fmap length].
    rewrite <- app_assoc.
    replace (sleeps w + S (length percents)) with (S (sleeps w) + length percents) by lia.
    reflexivity.
Qed.

(** Up to a total of 100, the default, the loading bar returns, leaves
    the exchanges alone and shows no error. *)
Lemma show_loading_bar_returns message total w :
  total ≤ 100 →
  show_loading_bar message total w
  = (Ok (),
     {| page := page w ++ progress_events message total;
        exchanges := exchanges w; session_state := session_state w;
        sleeps := sleeps w + total |}).
Proof.
  intros Htotal. unfold show_loading_bar.
  unfold mbind at 1, M_bind at 1, st_progress at 1, emit at 1. cbn [Nat.leb].
  unfold mbind at 1, M_bind at 1.
  rewrite progress_rounds by (apply Forall_forall; intros p Hp%elem_of_seq; lia).
  unfold emit. cbn [page exchanges session_state sleeps].
  rewrite length_seq. unfold progress_events.
  rewrite <- !app_assoc. reflexivity.
Qed.

Lemma progress_shows_no_error message (percents : list nat) :
  omap (λ ev, match ev with StError m => Some m | _ => None end)
    ((λ percent, StProgress (percent + 1) message) <$> percents) = [].
Proof. induction percents as [|p percents IH]; [done|]. exact IH. Qed.

Lemma submit_failed_weather_fetch i w f :
  failure_of (network (length (exchanges w)) (weather_request i)) = Some f →
  submit py_str network g i w
  = (Raise (AttributeError "status_code"),
     with_event (with_exchange (ready_to_fetch i w) (weather_request i))
       (StError (HttpRequestFailed (RequestException f)))).
Proof.
  intros Hf. unfold submit.
  unfold mbind at 1, M_bind at 1, session_update. cbn [foldl fst snd].
  unfold mbind at 1, M_bind at 1. rewrite show_loading_bar_returns by lia.
  cbn [page exchanges session_state sleeps].
  unfold mbind at 1, M_bind at 1.
  fold (ready_to_fetch i w).
  rewrite (send_request_failure network _ "GET" None (ready_to_fetch i w) f)
    by (auto; exact Hf).
  reflexivity.
Qed.

(** The recommendation half does the same when its own fetch fails. *)
Lemma recommend_failed_fetch i (s : summary) w f :
  let w1 := with_events w (progress_events "Generating Outfit Suggestions" 100) in
  let w2 := {| page := page w1; exchanges := exchanges w1;
               session_state := session_state w1; sleeps := sleeps w + 100 |} in
  let rq := request_for lambda_url "POST" (Some (aggregated_data i s)) in
  failure_of (network (length (exchanges w)) rq) = Some f →
  recommend py_str network i s w
  = (Raise (AttributeError "status_code"),
     with_event (with_exchange w2 rq) (StError (HttpRequestFailed (RequestException f)))).
Proof.
  intros w1 w2 rq Hf. unfold recommend.
  unfold mbind at 1, M_bind at 1. rewrite show_loading_bar_returns by lia.
  unfold mbind at 1, M_bind at 1. fold w2.
  rewrite (send_request_failure network _ "POST" _ w2 f) by (auto; exact Hf).
  reflexivity.
Qed.

(** In the module's namespace a forecast never gets as far as the
    recommendation: the aggregator's [TypeError] is no [ValueError], and
    leaves the [try] uncaught. *)
Lemma show_weather_forecast_raises i (r : response) (xs : list sample) w :
  json_body r = Some (forecast_set xs) →
  try_except (show_weather py_str network module_globals i r) is_ValueError
    (λ e, _ ← st_error FailedToReadWeather; emit (StShowError e)) w
  = (Raise prometheus_arity_error, w).
Proof.
  intros Hjson. unfold try_except, show_weather, response_json. rewrite Hjson.
  unfold mbind at 1, M_bind at 1, lift.
  unfold mbind at 1, M_bind at 1.
  change (py_contains "city" (forecast_set xs)) with (Ok false : result bool).
  unfold mbind at 1, M_bind at 1. unfold mret at 1, M_ret at 1.
  unfold mbind at 1, M_bind at 1.
  change (py_contains "list" (forecast_set xs)) with (Ok true : result bool).
  unfold mbind at 1, M_bind at 1.
  rewrite (process_weather_data_raises_in_module _ xs)
    by apply forecast_set_is_forecast_set.
  reflexivity.
Qed.

End ControllerFacts.

(** C5. A failed weather fetch is not turned into a message by the page
    controller: when the request client reports the failure (a failure of
    the transport, or a 4xx or 5xx status) and returns [None], the branch
    that should display "Failed to fetch weather data" reads
    [status_code] from that [None], and the [AttributeError] leaves
    [single_page_app] uncaught. The only message on the page is the
    request client's own. *)
Theorem single_page_app_crashes_on_failed_weather_fetch
    (py_str : pyval → string) (network : nat → request → exchange)
    (g : gmap string pyobj) (i : inputs) (w : world) (f : request_failure) :
  submit_pressed i = true →
  location i ≠ "" →
  failure_of (network (length (exchanges w)) (weather_request i)) = Some f →
  ∃ w', single_page_app py_str network g i w = (Raise (AttributeError "status_code"), w')
        ∧ errors_shown w' = errors_shown w ++ [HttpRequestFailed (RequestException f)]
        ∧ exchanges w' = exchanges w ++ [weather_request i].
Proof.
  intros Hsubmit Hloc Hf. unfold single_page_app.
  do 4 (unfold mbind at 1, M_bind at 1, emit at 1;
        cbn [page exchanges session_state sleeps]).
  rewrite Hsubmit. cbn [truthy]. rewrite bool_decide_eq_false_2 by done. cbn [negb].
  rewrite (submit_failed_weather_fetch py_str network g i _ f) by exact Hf.
  eexists. split; [reflexivity|]. split; [|reflexivity].
  unfold errors_shown, with_event, with_exchange, ready_to_fetch, progress_events.
  cbn [page]. rewrite <- !app_assoc, !omap_app. cbn [omap list_omap app].
  rewrite omap_app, progress_shows_no_error. reflexivity.
Qed.

(** C5 at a submission for "London" whose weather request times out. *)
Lemma single_page_app_crashes_on_failed_weather_fetch_witness :
  ∃ w', single_page_app str_of_text always_timeout module_globals london empty_world
        = (Raise (AttributeError "status_code"), w')
        ∧ errors_shown w'
          = errors_shown empty_world ++ [HttpRequestFailed (RequestException RequestTimeout)]
        ∧ exchanges w' = exchanges empty_world ++ [weather_request london].
Proof.
  apply (single_page_app_crashes_on_failed_weather_fetch str_of_text always_timeout
           module_globals london empty_world RequestTimeout).
  - reflexivity.
  - discriminate.
  - reflexivity.
Defined.

(* ===================================================================== *)
(** ** More about the module's top level                                  *)
(* ===================================================================== *)

Section MoreTopLevelFacts.

Variable env : environment.

Lemma run_crashed n e s : run env n (Crashed e s) = Crashed e s.
Proof. induction n as [|n IH]; [done|]. exact IH. Qed.

Lemma run_from_11 n : 11 ≤ n → run env n start = run env (n - 11) (run env 11 start).
Proof.
  intros Hn. replace n with (11 + (n - 11)) at 1 by lia.
  generalize (n - 11). intros k. generalize start. generalize 11.
  intros a. induction a as [|a IH]; intros c; [done|]. cbn [run Nat.add]. apply IH.
Qed.

Lemma busy_port_crash n :
  port_free env = false → 11 ≤ n →
  run env n start = Crashed (OSError "Address already in use") state_at_server.
Proof.
  intros Hport Hn. rewrite (run_from_11 n Hn), (server_fails env Hport).
  apply run_crashed.
Qed.

End MoreTopLevelFacts.

(** X1. While port 8000 is free the telemetry loop (source lines 23-24)
    never ends and counts its rounds: after [k] rounds the run is still
    at the loop, the metrics server listens on port 8000, the counter
    [my_app_requests] stands at [k], [random.randint] has been drawn [k]
    times, and between [k] and [5 * k] seconds have been slept. *)
Theorem telemetry_loop_counts_rounds (env : environment) (k : nat) :
  port_free env = true →
  ∃ s, run env (11 + k) start = Running loop_todo s
       ∧ server s = Some 8000%Z
       ∧ metrics s !! "my_app_requests" = Some k
       ∧ draws s = k
       ∧ k ≤ clock s ≤ 5 * k.
Proof.
  intros Hport.
  assert (∃ s, run env (11 + k) start = Running loop_todo s
               ∧ globals s = globals_at_loop ∧ server s = Some 8000%Z
               ∧ metrics s !! "my_app_requests" = Some k ∧ draws s = k
               ∧ k ≤ clock s ≤ 5 * k) as (s & ? & _ & ?); [|by exists s].
  induction k as [|k (s & Hrun & Hg & Hs & Hm & Hd & Hc)].
  - rewrite Nat.add_0_r, (reaches_loop env Hport). exists state_at_loop.
    split_and!; [reflexivity..|vm_compute; reflexivity|vm_compute; reflexivity
                |vm_compute; reflexivity|vm_compute; lia|vm_compute; lia].
  - rewrite Nat.add_succ_r, run_step_last, Hrun.
    rewrite step_in_loop, handle_request_in_loop by done.
    eexists. split; [reflexivity|]. cbn [globals metrics draws clock server].
    rewrite lookup_insert_eq, Hm, Hd. split_and!; [done..| |].
    + unfold randint_1_5. cbn [default]. lia.
    + unfold randint_1_5. pose proof (Nat.mod_upper_bound (random_draw env k) 5). lia.
Qed.

(** X1 after three rounds with the draws 0, 1, 2, ... *)
Lemma telemetry_loop_counts_rounds_witness :
  ∃ s, run {| random_draw := λ i, i; port_free := true; run_as_main := true |}
         (11 + 3) start = Running loop_todo s
       ∧ server s = Some 8000%Z
       ∧ metrics s !! "my_app_requests" = Some 3
       ∧ draws s = 3
       ∧ 3 ≤ clock s ≤ 5 * 3.
Proof.
  apply (telemetry_loop_counts_rounds
           {| random_draw := λ i, i; port_free := true; run_as_main := true |} 3).
  reflexivity.
Defined.



(** X3. The name [Counter] is bound twice (source lines 7 and 9). After
    the first import it names the class of [collections]; from the second
    import on, at every later point of the run and in every environment,
    it names the class of [prometheus_client]. *)
Theorem Counter_rebound_for_good (env : environment) :
  globals (config_state (run env 6 start)) !! "Counter" = Some CollectionsCounter
  ∧ ∀ n, 7 ≤ n →
         globals (config_state (run env n start)) !! "Counter" = Some PrometheusCounter.
Proof.
  split; [vm_compute; reflexivity|]. intros n Hn.
  destruct (Nat.lt_ge_cases n 11) as [Hlt|Hge].
  - do 7 (destruct n as [|n]; [lia|]).
    do 4 (destruct n as [|n]; [vm_compute; reflexivity|]). lia.
  - destruct (decide (port_free env = true)) as [Hport|Hport%not_true_is_false].
    + destruct (loop_round_count env (n - 11) Hport) as (s & Hrun & Hg & _).
      replace (11 + (n - 11)) with n in Hrun by lia.
      rewrite Hrun. cbn [config_state]. rewrite Hg. vm_compute. reflexivity.
    + rewrite (busy_port_crash env n Hport Hge). vm_compute. reflexivity.
Qed.

(* ===================================================================== *)
(** ** More about the aggregator                                          *)
(* ===================================================================== *)

Section MoreAggregatorFacts.

Implicit Types (g : gmap string pyobj) (xs ys : list sample) (acc : series).

(** The entries read so far do not change what a later entry raises. *)
Lemma collect_after_good (good rest : list pyval) xs acc :
  Forall2 reads_as good xs →
  collect (good ++ rest) acc = collect rest (series_app acc (series_of xs)).
Proof.
  intros Hread. revert acc.
  induction Hread as [|entry x good xs Hx _ IH]; intros acc.
  - destruct acc; unfold series_app; simpl. by rewrite !app_nil_r.
  - destruct Hx as (main & wind & weather & first & Hm & Ht & Hh & Hw & Hs & Hc & Hf & Hl).
    cbn [collect app]. rewrite Hm. cbn [mbind result_bind]. rewrite Ht, Hh, Hw.
    cbn [mbind result_bind]. rewrite Hs, Hc. cbn [mbind result_bind]. rewrite Hf.
    cbn [mbind result_bind]. rewrite Hl. cbn [mbind result_bind].
    rewrite IH. f_equal. unfold series_app; simpl. by rewrite <- !app_assoc.
Qed.

End MoreAggregatorFacts.

(** X4. In the module's namespace [process_weather_data] returns for no
    input whatever: whether the 'list' is missing, an entry is
    ill-formed, or every entry is well-formed, each call ends in an
    exception. *)
Theorem process_weather_data_always_raises (weather_data : pyval) :
  ∃ e, process_weather_data module_globals weather_data = Raise e.
Proof.
  unfold process_weather_data.
  destruct (getitem weather_data "list") as [entries|e]; [|by exists e].
  cbn [mbind result_bind].
  destruct (py_iter entries) as [forecasts|e]; [|by exists e].
  cbn [mbind result_bind].
  destruct (collect forecasts no_series) as [s|e]; [|by exists e].
  cbn [mbind result_bind].
  destruct (averages module_globals s) as [avgs|e]; [|by exists e].
  cbn [mbind result_bind]. rewrite Counter_most_common_module. by eexists.
Qed.

(** X5. An entry without the key 'main' makes the function raise
    [KeyError('main')], in every namespace, wherever the entry stands
    behind well-formed entries and whatever follows it: the loop has no
    guard for a missing field. *)
Theorem process_weather_data_entry_without_main
    (g : gmap string pyobj) (d bad : gmap string pyval) (good rest : list pyval)
    (xs : list sample) :
  d !! "list" = Some (PList (good ++ PDict bad :: rest)) →
  Forall2 reads_as good xs →
  bad !! "main" = None →
  process_weather_data g (PDict d) = Raise (KeyError "main").
Proof.
  intros Hlist Hgood Hbad. unfold process_weather_data. cbn [getitem].
  rewrite Hlist. cbn [mbind result_bind py_iter].
  rewrite (collect_after_good good _ xs) by done.
  cbn [collect getitem]. by rewrite Hbad.
Qed.

(** X5 at the three entries of the example followed by an entry that
    holds a timestamp only. *)
Lemma process_weather_data_entry_without_main_witness :
  process_weather_data module_globals
    (PDict {[ "list" := PList ((forecast_entry <$> three_entries)
                               ++ PDict {[ "dt_txt" := PStr "2024-05-01 12:00:00" ]}
                               :: []) ]})
  = Raise (KeyError "main").
Proof.
  apply (process_weather_data_entry_without_main module_globals _
           {[ "dt_txt" := PStr "2024-05-01 12:00:00" ]}
           (forecast_entry <$> three_entries) [] three_entries).
  - reflexivity.
  - repeat constructor; apply reads_as_forecast_entry.
  - reflexivity.
Defined.

(** X6. An entry whose 'weather' list is empty makes the function raise
    [IndexError], in every namespace: the subscript [[0]] (source line
    157) is taken without a test, after the entry's temperature, humidity
    and wind speed have been read. *)
Theorem process_weather_data_empty_weather_list
    (g : gmap string pyobj) (d bad : gmap string pyval) (good rest : list pyval)
    (xs : list sample) (main wind temp humidity speed : pyval) :
  d !! "list" = Some (PList (good ++ PDict bad :: rest)) →
  Forall2 reads_as good xs →
  bad !! "main" = Some main → getitem main "temp" = Ok temp →
  getitem main "humidity" = Ok humidity →
  bad !! "wind" = Some wind → getitem wind "speed" = Ok speed →
  bad !! "weather" = Some (PList []) →
  process_weather_data g (PDict d) = Raise IndexError.
Proof.
  intros Hlist Hgood Hm Ht Hh Hw Hs Hweather. unfold process_weather_data.
  cbn [getitem]. rewrite Hlist. cbn [mbind result_bind py_iter].
  rewrite (collect_after_good good _ xs) by done.
  cbn [collect getitem]. rewrite Hm. cbn [mbind result_bind].
  rewrite Ht. cbn [mbind result_bind]. rewrite Hh. cbn [mbind result_bind].
  rewrite Hw. cbn [mbind result_bind]. rewrite Hs. cbn [mbind result_bind].
  by rewrite Hweather.
Qed.

(** X6 at a single entry with an empty 'weather' list. *)
Lemma process_weather_data_empty_weather_list_witness :
  process_weather_data module_globals
    (PDict {[ "list" := PList ([] ++ PDict dry_entry :: []) ]})
  = Raise IndexError.
Proof.
  apply (process_weather_data_empty_weather_list module_globals _ dry_entry [] [] []
           (PDict {[ "temp" := PNum 1%Qc; "humidity" := PNum 1%Qc ]})
           (PDict {[ "speed" := PNum 1%Qc ]}) (PNum 1%Qc) (PNum 1%Qc) (PNum 1%Qc));
    first [reflexivity | constructor].
Defined.

(** X7. Where [Counter] is the class of [collections], the expression
    [Counter(weather_main_conditions).most_common(1)[0][0]] of source
    line 162 returns, for every non-empty list of labels, the label with
    the highest count, the first in the sequence among several with that
    count. *)
Theorem most_common_weather_first_of_highest
    (g : gmap string pyobj) (x : string) (labels : list string) :
  g !! "Counter" = Some CollectionsCounter →
  ∃ m l1 l2,
    Counter_most_common g (PStr <$> (x :: labels)) = Ok (PStr m)
    ∧ x :: labels = l1 ++ m :: l2 ∧ (m ∉ l1)
    ∧ (∀ y, occurrences y (x :: labels) ≤ occurrences m (x :: labels))
    ∧ (∀ y, y ∈ l1 → occurrences y (x :: labels) < occurrences m (x :: labels)).
Proof.
  intros HCounter.
  destruct (collections_most_common_first_of_highest x labels)
    as (m & l1 & l2 & Hm & Hsplit & Hfirst & Hmax & Hbefore).
  exists m, l1, l2. split_and!; [|done..].
  unfold Counter_most_common. by rewrite HCounter.
Qed.

(** X7 at the labels "Clear", "Rain", "Rain", "Clear", "Snow". *)
Lemma most_common_weather_first_of_highest_witness :
  ∃ m l1 l2,
    Counter_most_common globals_with_collections_Counter
      (PStr <$> ("Clear" :: ["Rain"; "Rain"; "Clear"; "Snow"]))
    = Ok (PStr m)
    ∧ "Clear" :: ["Rain"; "Rain"; "Clear"; "Snow"] = l1 ++ m :: l2 ∧ (m ∉ l1)
    ∧ (∀ y, occurrences y ("Clear" :: ["Rain"; "Rain"; "Clear"; "Snow"])
            ≤ occurrences m ("Clear" :: ["Rain"; "Rain"; "Clear"; "Snow"]))
    ∧ (∀ y, y ∈ l1 → occurrences y ("Clear" :: ["Rain"; "Rain"; "Clear"; "Snow"])
                     < occurrences m ("Clear" :: ["Rain"; "Rain"; "Clear"; "Snow"])).
Proof.
  apply (most_common_weather_first_of_highest globals_with_collections_Counter
           "Clear" ["Rain"; "Rain"; "Clear"; "Snow"]).
  exact collections_Counter_bound.
Defined.

(* ===================================================================== *)
(** ** More about the presentation formatter                              *)
(* ===================================================================== *)

Section MoreFormatterFacts.

Variable py_str : pyval → string.

Lemma list_ascii_of_append (s t : string) :
  String.list_ascii_of_string (s +:+ t)
  = String.list_ascii_of_string s ++ String.list_ascii_of_string t.
Proof. induction s as [|c s IH]; [done|]. simpl. f_equal. exact IH. Qed.

Lemma append_cancel_r (s1 s2 t : string) : s1 +:+ t = s2 +:+ t → s1 = s2.
Proof.
  intros H. apply (f_equal String.list_ascii_of_string) in H.
  rewrite !list_ascii_of_append in H. apply app_inv_tail in H.
  rewrite <- (String.string_of_list_ascii_of_string s1),
    <- (String.string_of_list_ascii_of_string s2).
  by rewrite H.
Qed.

(** The image reference is the fixed prefix, the icon code and the fixed
    suffix. *)
Lemma get_weather_icon_html_shape (icon_code : pyval) :
  get_weather_icon_html py_str icon_code
  = ("<img src=" +:+ dq +:+ "https://openweathermap.org/img/wn/")
      +:+ py_str icon_code
      +:+ ("@2x.png" +:+ dq +:+ " width=" +:+ dq +:+ "50" +:+ dq +:+ ">").
Proof.
  reflexivity.
Qed.

End MoreFormatterFacts.

(** X10. [get_weather_icon_html] (source lines 44-45) never confuses two
    icons: the image references of two icon codes are equal only if the
    codes are rendered alike. *)
Theorem get_weather_icon_html_injective (py_str : pyval → string) (a b : pyval) :
  get_weather_icon_html py_str a = get_weather_icon_html py_str b → py_str a = py_str b.
Proof.
  rewrite !get_weather_icon_html_shape. intros H.
  apply String.app_inj in H. by apply append_cancel_r in H.
Qed.

(** X10 at the icon code "10d" met twice. *)
Lemma get_weather_icon_html_injective_witness :
  str_of_text (PStr "10d") = str_of_text (PStr "10d").
Proof.
  apply (get_weather_icon_html_injective str_of_text (PStr "10d") (PStr "10d")).
  reflexivity.
Defined.

(** X11. When slots are missing, [format_outfit_suggestions] reports the
    first of them in the order of the template (Top, Bottom, Footwear,
    Outerwear, Accessories): it raises [KeyError(k)] exactly when the slot
    [k] is absent and every slot before it is present. *)
Theorem format_outfit_suggestions_first_missing
    (py_str : pyval → string) (d : gmap string pyval) (k : string) :
  format_outfit_suggestions py_str (PDict d) = Raise (KeyError k)
  ↔ ∃ before after,
      clothing_slots = before ++ k :: after
      ∧ d !! k = None
      ∧ ∀ k', k' ∈ before → is_Some (d !! k').
Proof.
  unfold format_outfit_suggestions, clothing_slots. cbn [getitem]. split.
  - destruct (d !! "Top") as [top|] eqn:H1; cbn [mbind result_bind].
    2:{ intros [= <-]. exists [], ["Bottom"; "Footwear"; "Outerwear"; "Accessories"].
        split_and!; [done..|]. by intros ? ?%elem_of_nil. }
    destruct (d !! "Bottom") as [bottom|] eqn:H2; cbn [mbind result_bind].
    2:{ intros [= <-]. exists ["Top"], ["Footwear"; "Outerwear"; "Accessories"].
        split_and!; [done..|]. intros k' ->%list_elem_of_singleton. eauto. }
    destruct (d !! "Footwear") as [footwear|] eqn:H3; cbn [mbind result_bind].
    2:{ intros [= <-]. exists ["Top"; "Bottom"], ["Outerwear"; "Accessories"].
        split_and!; [done..|].
        intros k'. rewrite !elem_of_cons, elem_of_nil.
        intros [->|[->|[]]]; eauto. }
    destruct (d !! "Outerwear") as [outerwear|] eqn:H4; cbn [mbind result_bind].
    2:{ intros [= <-]. exists ["Top"; "Bottom"; "Footwear"], ["Accessories"].
        split_and!; [done..|].
        intros k'. rewrite !elem_of_cons, elem_of_nil.
        intros [->|[->|[->|[]]]]; eauto. }
    destruct (d !! "Accessories") as [accessories|] eqn:H5; cbn [mbind result_bind].
    2:{ intros [= <-]. exists ["Top"; "Bottom"; "Footwear"; "Outerwear"], [].
        split_and!; [done..|].
        intros k'. rewrite !elem_of_cons, elem_of_nil.
        intros [->|[->|[->|[->|[]]]]]; eauto. }
    discriminate.
  - intros (before & after & Hsplit & Hnone & Hbefore).
    assert (∀ k', k' ∈ before → ∃ v, d !! k' = Some v) as Hsome
      by (intros k' Hk'; by apply Hbefore).
    destruct before as [|b1 [|b2 [|b3 [|b4 [|b5 before]]]]];
      simplify_eq/=.
    + by rewrite Hnone.
    + destruct (Hsome "Top") as [? ->]; [set_solver|]. cbn. by rewrite Hnone.
    + destruct (Hsome "Top") as [? ->]; [set_solver|].
      destruct (Hsome "Bottom") as [? ->]; [set_solver|]. cbn. by rewrite Hnone.
    + destruct (Hsome "Top") as [? ->]; [set_solver|].
      destruct (Hsome "Bottom") as [? ->]; [set_solver|].
      destruct (Hsome "Footwear") as [? ->]; [set_solver|]. cbn. by rewrite Hnone.
    + destruct (Hsome "Top") as [? ->]; [set_solver|].
      destruct (Hsome "Bottom") as [? ->]; [set_solver|].
      destruct (Hsome "Footwear") as [? ->]; [set_solver|].
      destruct (Hsome "Outerwear") as [? ->]; [set_solver|]. cbn. by rewrite Hnone.
    + by destruct before.
Qed.

(** X11 at a reply that lacks both "Footwear" and "Accessories". *)
Lemma format_outfit_suggestions_first_missing_witness :
  format_outfit_suggestions str_of_text (PDict barefoot) = Raise (KeyError "Footwear").
Proof.
  apply (proj2 (format_outfit_suggestions_first_missing str_of_text barefoot "Footwear")).
  exists ["Top"; "Bottom"], ["Outerwear"; "Accessories"].
  split_and!; [reflexivity..|].
  intros k'. rewrite !elem_of_cons, elem_of_nil.
  intros [->|[->|[]]]; vm_compute; eauto.
Defined.

(* ===================================================================== *)
(** ** More about the page controller                                     *)
(* ===================================================================== *)

Section MoreControllerFacts.

Variable py_str : pyval → string.
Variable network : nat → request → exchange.
Variable g : gmap string pyobj.

Implicit Types (i : inputs) (w : world) (r : response).

Lemma bind_run {A B} (m : M A) (f : A → M B) w :
  (m ≫= f) w
  = match m w with
    | (Ok a, w') => f a w'
    | (Raise e, w') => (Raise e, w')
    end.
Proof. reflexivity. Qed.

Lemma emit_run ev w : emit ev w = (Ok (), with_event w ev).
Proof. reflexivity. Qed.

Lemma for_each_app {A} (f : A → M unit) (l1 l2 : list A) w :
  for_each f (l1 ++ l2) w
  = match for_each f l1 w with
    | (Ok _, w') => for_each f l2 w'
    | (Raise e, w') => (Raise e, w')
    end.
Proof.
  revert w. induction l1 as [|a l1 IH]; intros w; [done|].
  cbn [for_each app]. rewrite !bind_run. destruct (f a w) as [[[]|e] w']; [apply IH|done].
Qed.

(** Past a total of 100 the bar stops at the percentage 101, which the
    widget refuses, after one more sleep. *)
Lemma show_loading_bar_past_100 (label : string) total w :
  100 < total →
  show_loading_bar label total w
  = (Raise progress_value_error,
     {| page := page w ++ progress_events_cut_short label;
        exchanges := exchanges w; session_state := session_state w;
        sleeps := sleeps w + 101 |}).
Proof.
  intros Htotal. unfold show_loading_bar.
  rewrite bind_run. unfold st_progress at 1. cbn [Nat.leb]. rewrite emit_run. cbv beta iota.
  rewrite bind_run.
  replace total with (100 + S (total - 101)) by lia.
  rewrite seq_app, for_each_app.
  rewrite progress_rounds by (apply Forall_forall; intros p Hp%elem_of_seq; lia).
  rewrite length_seq. cbn [seq for_each]. rewrite !bind_run.
  unfold sleep_10ms at 1. cbv beta iota.
  unfold st_progress at 1. rewrite (proj2 (Nat.leb_gt (0 + 100 + 1) 100)) by lia.
  unfold raise, with_event, progress_events_cut_short.
  cbn [page exchanges session_state sleeps]. rewrite <- app_assoc.
  do 2 f_equal. lia.
Qed.

Lemma errors_shown_event w ev :
  errors_shown (with_event w ev) = errors_shown w ++ from_option (λ m, [m]) [] (error_shown ev).
Proof.
  unfold errors_shown, with_event. cbn [page]. rewrite omap_app. f_equal.
Qed.

Lemma errors_shown_events w evs :
  errors_shown (with_events w evs) = errors_shown w ++ omap error_shown evs.
Proof. unfold errors_shown, with_events. cbn [page]. apply omap_app. Qed.

Lemma progress_events_no_error (label : string) total :
  omap error_shown (progress_events label total) = [].
Proof.
  unfold progress_events. cbn [omap list_omap error_shown].
  rewrite omap_app. change (omap error_shown [StProgressEmpty]) with (@nil message).
  rewrite app_nil_r. induction (seq 0 total) as [|p l IH]; [done|]. exact IH.
Qed.

Lemma errors_shown_ready i w : errors_shown (ready_to_fetch i w) = errors_shown w.
Proof.
  unfold errors_shown, ready_to_fetch. cbn [page]. rewrite omap_app.
  change (omap _ (progress_events ?m ?t)) with (omap error_shown (progress_events m t)).
  by rewrite progress_events_no_error, app_nil_r.
Qed.

Lemma errors_shown_at_weather_fetch i w :
  errors_shown (after_weather_fetch i w) = errors_shown w.
Proof.
  unfold after_weather_fetch, at_weather_fetch.
  change (errors_shown (with_exchange ?w' _)) with (errors_shown w').
  rewrite errors_shown_ready, errors_shown_events. cbn. by rewrite app_nil_r.
Qed.

(** A press of the button with a location starts a submission. *)
Lemma single_page_app_submits i w :
  submit_pressed i = true → location i ≠ "" →
  single_page_app py_str network g i w
  = submit py_str network g i (with_events w page_head).
Proof.
  intros Hpress Hloc. unfold single_page_app.
  do 4 (rewrite bind_run, emit_run; cbv beta iota). rewrite Hpress. cbn [truthy].
  rewrite bool_decide_eq_false_2 by done. cbn [negb].
  f_equal. unfold with_events, with_event, page_head. cbn [page exchanges session_state sleeps].
  by rewrite <- !app_assoc.
Qed.

(** A submission whose weather request is answered without a 4xx or 5xx
    status goes on according to the status. *)
Lemma submit_answered i w r :
  network (length (exchanges w)) (weather_request i) = Replied r →
  ¬ (400 ≤ status_code r < 600)%Z →
  submit py_str network g i w
  = let w1 := with_exchange (ready_to_fetch i w) (weather_request i) in
    if bool_decide (status_code r = 200%Z)
    then try_except (show_weather py_str network g i r) is_ValueError
           (λ e, _ ← st_error FailedToReadWeather; emit (StShowError e)) w1
    else (Ok (),
          with_event (with_event w1 (StError (FailedToFetchWeather (status_code r))))
            (StShow "Response content:" (text r))).
Proof.
  intros Hnet Hstatus. unfold submit.
  rewrite bind_run. unfold session_update at 1. cbn [foldl fst snd].
  rewrite bind_run, show_loading_bar_returns by lia. cbn [page exchanges session_state sleeps].
  fold (ready_to_fetch i w). rewrite bind_run.
  rewrite send_request_known_method by auto. cbv zeta.
  change (request_for (weather_endpoint +:+ location i) "GET" None)
    with (weather_request i).
  change (exchanges (ready_to_fetch i w)) with (exchanges w).
  rewrite Hnet. rewrite (bool_decide_eq_false_2 _ Hstatus).
  unfold is_200, response_ok. rewrite (bool_decide_eq_false_2 _ Hstatus). cbn [negb andb].
  case_bool_decide; reflexivity.
Qed.

End MoreControllerFacts.

(** The percentages of a bar that has counted up to [n]. *)
Lemma progress_percents_shown (label : string) n :
  omap percent_shown
    (StProgress 0 label :: ((λ percent, StProgress (percent + 1) label) <$> seq 0 n))
  = seq 0 (S n).
Proof.
  cbn [omap list_omap percent_shown seq]. f_equal.
  rewrite <- fmap_S_seq.
  induction (seq 0 n) as [|p l IH]; [done|].
  csimpl. rewrite IH. f_equal. f_equal. lia.
Qed.

(** Running a computation one bind at a time. *)
Ltac run_M :=
  repeat first
    [ rewrite bind_run
    | rewrite emit_run
    | progress unfold lift, raise, mret, M_ret
    | progress cbv beta iota ].

(** X14. [show_loading_bar] (source lines 101-105) returns exactly for
    the totals up to 100: it then shows the percentages 0, 1, ..., [total]
    in this order and clears the bar after [total] sleeps. For a greater
    total it shows 0, 1, ..., 100 and then raises, at the percentage 101
    that the widget refuses and after the 101st sleep, without clearing
    the bar. Either way it performs no exchange, shows no error and leaves
    the session state alone. *)
Theorem show_loading_bar_counts_up (message : string) (total : nat) (w : world) :
  ∃ shown,
    show_loading_bar message total w
    = (if bool_decide (total ≤ 100) then Ok () else Raise progress_value_error,
       {| page := page w ++ shown; exchanges := exchanges w;
          session_state := session_state w; sleeps := sleeps w + total `min` 101 |})
    ∧ omap percent_shown shown = seq 0 (S (total `min` 100))
    ∧ (last shown = Some StProgressEmpty ↔ total ≤ 100)
    ∧ omap error_shown shown = [].
Proof.
  destruct (decide (total ≤ 100)) as [Hle|Hgt].
  - exists (progress_events message total).
    rewrite bool_decide_eq_true_2, Nat.min_l, Nat.min_l by lia.
    split; [by apply show_loading_bar_returns|].
    split_and!.
    + unfold progress_events.
      rewrite app_comm_cons, omap_app, progress_percents_shown. apply app_nil_r.
    + split; [done|]. intros _. unfold progress_events. rewrite app_comm_cons.
      apply last_snoc.
    + apply progress_events_no_error.
  - exists (progress_events_cut_short message).
    rewrite bool_decide_eq_false_2, Nat.min_r, Nat.min_r by lia.
    split; [apply show_loading_bar_past_100; lia|].
    split_and!.
    + exact (progress_percents_shown message 100).
    + split; [|lia]. unfold progress_events_cut_short.
      change (seq 0 100) with (seq 0 99 ++ [99]). rewrite fmap_app, app_comm_cons.
      cbn [fmap list_fmap]. rewrite last_snoc. discriminate.
    + unfold progress_events_cut_short. cbn [omap list_omap error_shown].
      induction (seq 0 100) as [|p l IH]; [done|]. exact IH.
Qed.

(** X15. Without a press of the button, or with an empty location, the
    page controller contacts nobody: the run returns, no exchange is
    performed, the session state is untouched, no loading bar is shown,
    and the only message is "Please enter a location." when the button
    was pressed (source lines 309-310 and 369-370). *)
Theorem single_page_app_idle
    (py_str : pyval → string) (network : nat → request → exchange)
    (g : gmap string pyobj) (i : inputs) (w : world) :
  submit_pressed i = false ∨ location i = "" →
  single_page_app py_str network g i w
  = (Ok (),
     with_events w
       (page_head ++ if submit_pressed i then [StError PleaseEnterLocation] else [])).
Proof.
  intros Hidle. unfold single_page_app.
  do 4 (rewrite bind_run, emit_run; cbv beta iota).
  unfold with_events, with_event, page_head. cbn [page exchanges session_state sleeps].
  destruct (submit_pressed i).
  - destruct Hidle as [?|Hloc]; [done|]. rewrite Hloc.
    cbn [truthy]. rewrite bool_decide_eq_true_2 by done. cbn [negb].
    unfold st_error, emit.
    cbn [page exchanges session_state sleeps]. by rewrite <- !app_assoc.
  - unfold mret, M_ret. by rewrite <- !app_assoc, app_nil_r.
Qed.

(** X15 at a press of the button with nothing entered. *)
Lemma single_page_app_idle_witness :
  single_page_app str_of_text always_timeout module_globals
    {| chosen_level := Low; chosen_type := Formal; location := "";
       submit_pressed := true |} empty_world
  = (Ok (),
     with_events empty_world (page_head ++ [StError PleaseEnterLocation])).
Proof.
  apply (single_page_app_idle str_of_text always_timeout module_globals
           {| chosen_level := Low; chosen_type := Formal; location := "";
              submit_pressed := true |} empty_world).
  right. reflexivity.
Defined.

Section SubmissionFacts.

Variable py_str : pyval → string.
Variable network : nat → request → exchange.
Variable g : gmap string pyobj.

Implicit Types (i : inputs) (w : world) (r : response).

(** A submission answered with the status 200 runs the [try] block. *)
Lemma single_page_app_200 i w r :
  submit_pressed i = true → location i ≠ "" →
  network (length (exchanges w)) (weather_request i) = Replied r →
  status_code r = 200%Z →
  single_page_app py_str network g i w
  = try_except (show_weather py_str network g i r) is_ValueError
      (λ e, _ ← st_error FailedToReadWeather; emit (StShowError e))
      (after_weather_fetch i w).
Proof.
  intros Hpress Hloc Hnet Hstatus.
  rewrite single_page_app_submits by done.
  rewrite (submit_answered py_str network g i _ r); [|exact Hnet|lia].
  cbv zeta. by rewrite bool_decide_eq_true_2.
Qed.

Lemma getitem_not_ValueError (v : pyval) (k : string) (e : exn) :
  getitem v k = Raise e → is_ValueError e = false.
Proof.
  destruct v as [| | | | |d]; cbn; try by intros [= <-].
  destruct (d !! k); [done|]. by intros [= <-].
Qed.

End SubmissionFacts.

(** X16. A weather reply with the status 200 whose body is not JSON is
    handled by the [except ValueError] clause (source lines 363-365):
    the run returns, "Failed to read weather data." and the decoding
    error are shown, and nothing else is requested. *)
Theorem single_page_app_unreadable_weather
    (py_str : pyval → string) (network : nat → request → exchange)
    (g : gmap string pyobj) (i : inputs) (w : world) (r : response) :
  submit_pressed i = true → location i ≠ "" →
  network (length (exchanges w)) (weather_request i) = Replied r →
  status_code r = 200%Z →
  json_body r = None →
  single_page_app py_str network g i w
  = (Ok (),
     with_event (with_event (after_weather_fetch i w) (StError FailedToReadWeather))
       (StShowError JSONDecodeError)).
Proof.
  intros Hpress Hloc Hnet Hstatus Hjson.
  rewrite (single_page_app_200 py_str network g i w r) by done.
  unfold try_except, show_weather. rewrite bind_run.
  unfold lift, response_json. rewrite Hjson. reflexivity.
Qed.

(** X16 at a submission for "London" answered with a page that is not
    JSON. *)
Lemma single_page_app_unreadable_weather_witness :
  single_page_app str_of_text (λ _ _, Replied not_json) module_globals london empty_world
  = (Ok (),
     with_event
       (with_event (after_weather_fetch london empty_world) (StError FailedToReadWeather))
       (StShowError JSONDecodeError)).
Proof.
  apply (single_page_app_unreadable_weather str_of_text (λ _ _, Replied not_json)
           module_globals london empty_world not_json).
  - reflexivity.
  - discriminate.
  - reflexivity.
  - reflexivity.
  - reflexivity.
Defined.

(** X17. A weather reply with a status that is neither 200 nor a 4xx or
    5xx (a 204 or a 304, say) takes the [else] branch (source lines
    366-368) and is reported: the run returns, having shown "Failed to
    fetch weather data" with the status, and the body of the reply. *)
Theorem single_page_app_other_status
    (py_str : pyval → string) (network : nat → request → exchange)
    (g : gmap string pyobj) (i : inputs) (w : world) (r : response) :
  submit_pressed i = true → location i ≠ "" →
  network (length (exchanges w)) (weather_request i) = Replied r →
  status_code r ≠ 200%Z → ¬ (400 ≤ status_code r < 600)%Z →
  single_page_app py_str network g i w
  = (Ok (),
     with_event
       (with_event (after_weather_fetch i w)
          (StError (FailedToFetchWeather (status_code r))))
       (StShow "Response content:" (text r))).
Proof.
  intros Hpress Hloc Hnet H200 Hstatus.
  rewrite single_page_app_submits by done.
  rewrite (submit_answered py_str network g i _ r); [|exact Hnet|done].
  cbv zeta. by rewrite bool_decide_eq_false_2.
Qed.

(** X17 at a submission for "London" answered with "304 Not Modified". *)
Lemma single_page_app_other_status_witness :
  single_page_app str_of_text always_304 module_globals london empty_world
  = (Ok (),
     with_event
       (with_event (after_weather_fetch london empty_world)
          (StError (FailedToFetchWeather 304)))
       (StShow "Response content:" "")).
Proof.
  apply (single_page_app_other_status str_of_text always_304 module_globals london
           empty_world not_modified).
  - reflexivity.
  - discriminate.
  - reflexivity.
  - discriminate.
  - cbn. lia.
Defined.

(** X18. A weather reply with the status 200 whose JSON object has
    neither 'city' nor 'list' is shown as nothing at all: the run
    returns after the loading bar without any message, summary or further
    request (source lines 327 and 333 have no [else]). *)
Theorem single_page_app_silent_on_empty_object
    (py_str : pyval → string) (network : nat → request → exchange)
    (g : gmap string pyobj) (i : inputs) (w : world) (r : response)
    (d : gmap string pyval) :
  submit_pressed i = true → location i ≠ "" →
  network (length (exchanges w)) (weather_request i) = Replied r →
  status_code r = 200%Z →
  json_body r = Some (PDict d) → d !! "city" = None → d !! "list" = None →
  single_page_app py_str network g i w = (Ok (), after_weather_fetch i w).
Proof.
  intros Hpress Hloc Hnet Hstatus Hjson Hcity Hlist.
  rewrite (single_page_app_200 py_str network g i w r) by done.
  unfold try_except, show_weather. rewrite bind_run.
  unfold lift at 1, response_json. rewrite Hjson. cbv beta iota.
  rewrite bind_run. unfold lift at 1, py_contains at 1. rewrite Hcity.
  rewrite bool_decide_eq_false_2 by (by intros [? ?]). cbv beta iota.
  rewrite bind_run. unfold mret at 1, M_ret at 1. cbv beta iota.
  rewrite bind_run. unfold lift at 1, py_contains at 1. rewrite Hlist.
  rewrite bool_decide_eq_false_2 by (by intros [? ?]). reflexivity.
Qed.

(** X18 at a submission for "London" answered with the JSON object [{}]. *)
Lemma single_page_app_silent_on_empty_object_witness :
  single_page_app str_of_text (λ _ _, Replied empty_object) module_globals london
    empty_world
  = (Ok (), after_weather_fetch london empty_world).
Proof.
  apply (single_page_app_silent_on_empty_object str_of_text
           (λ _ _, Replied empty_object) module_globals london empty_world
           empty_object ∅).
  - reflexivity.
  - discriminate.
  - reflexivity.
  - reflexivity.
  - reflexivity.
  - reflexivity.
  - reflexivity.
Defined.

(** X19. In the module's namespace every weather reply with the status
    200 and a 'list' of well-formed entries ends the run with an
    uncaught exception that is no [ValueError]: the recommendation
    endpoint is never contacted (the weather request stays the only
    exchange) and no error message is shown. *)
Theorem single_page_app_never_recommends
    (py_str : pyval → string) (network : nat → request → exchange)
    (i : inputs) (w : world) (r : response)
    (weather_data : pyval) (xs : list sample) :
  submit_pressed i = true → location i ≠ "" →
  network (length (exchanges w)) (weather_request i) = Replied r →
  status_code r = 200%Z →
  json_body r = Some weather_data → is_forecast_set weather_data xs →
  ∃ e w',
    single_page_app py_str network module_globals i w = (Raise e, w')
    ∧ is_ValueError e = false
    ∧ exchanges w' = exchanges w ++ [weather_request i]
    ∧ errors_shown w' = errors_shown w.
Proof.
  intros Hpress Hloc Hnet Hstatus Hjson Hset.
  rewrite (single_page_app_200 py_str network module_globals i w r) by done.
  pose proof (process_weather_data_raises_in_module weather_data xs Hset) as Hraise.
  destruct Hset as (d & entries & -> & Hlist & Hread).
  unfold try_except, show_weather. rewrite bind_run.
  unfold lift at 1, response_json. rewrite Hjson. cbv beta iota.
  rewrite bind_run. unfold lift at 1, py_contains at 1. cbv beta iota.
  set (w1 := after_weather_fetch i w).
  assert (exchanges w1 = exchanges w ++ [weather_request i]) as Hex by reflexivity.
  assert (errors_shown w1 = errors_shown w) as Herr
    by apply errors_shown_at_weather_fetch.
  assert (∀ w2, exchanges w2 = exchanges w1 → errors_shown w2 = errors_shown w1 →
    ∃ e w',
      try_except
        (lift (py_contains "list" (PDict d))
         ≫= λ has_list : bool,
              if has_list
              then lift (process_weather_data module_globals (PDict d))
                   ≫= λ s, display_weather_summary s
                           ≫= λ _, recommend py_str network i s
                                   ≫= λ _, lift (getitem (PDict d) "list")
                                           ≫= λ forecasts,
                                                display_forecasts py_str forecasts
              else mret ())
        is_ValueError
        (λ e0, st_error FailedToReadWeather ≫= λ _, emit (StShowError e0)) w2
      = (Raise e, w')
      ∧ is_ValueError e = false
      ∧ exchanges w' = exchanges w ++ [weather_request i]
      ∧ errors_shown w' = errors_shown w) as Hrest.
  { intros w2 Hex2 Herr2. unfold try_except.
    rewrite bind_run. unfold lift at 1, py_contains at 1.
    rewrite Hlist, bool_decide_eq_true_2 by eauto. cbv beta iota.
    rewrite bind_run. unfold lift at 1. rewrite Hraise.
    eexists _, _. split; [reflexivity|]. split_and!; [done|congruence..]. }
  destruct (d !! "city") as [city|] eqn:Hcity.
  - rewrite bool_decide_eq_true_2 by eauto.
    rewrite bind_run. rewrite bind_run. unfold lift at 1. cbn [getitem]. rewrite Hcity.
    cbv beta iota. rewrite bind_run. unfold lift at 1.
    destruct (getitem city "name") as [city_name|e] eqn:Hname; cbv beta iota.
    2:{ rewrite (getitem_not_ValueError _ _ _ Hname). eexists _, _.
        split; [reflexivity|]. split_and!; [by eapply getitem_not_ValueError|done..]. }
    rewrite bind_run. unfold lift at 1. cbv beta iota.
    rewrite bind_run. unfold lift at 1.
    destruct (getitem city "country") as [country_code|e] eqn:Hcountry; cbv beta iota.
    2:{ rewrite (getitem_not_ValueError _ _ _ Hcountry). eexists _, _.
        split; [reflexivity|]. split_and!; [by eapply getitem_not_ValueError|done..]. }
    rewrite bind_run, emit_run. cbv beta iota. rewrite emit_run.
    apply Hrest.
    + reflexivity.
    + rewrite !errors_shown_event. cbn. by rewrite !app_nil_r.
  - rewrite bool_decide_eq_false_2 by (by intros [? ?]).
    rewrite bind_run. unfold mret at 1, M_ret at 1. cbv beta iota.
    by apply Hrest.
Qed.

(** X19 at a submission for "London" answered with the three entries of
    the example. *)
Lemma single_page_app_never_recommends_witness :
  ∃ e w',
    single_page_app str_of_text (λ _ _, Replied three_entries_reply) module_globals
      london empty_world = (Raise e, w')
    ∧ is_ValueError e = false
    ∧ exchanges w' = exchanges empty_world ++ [weather_request london]
    ∧ errors_shown w' = errors_shown empty_world.
Proof.
  apply (single_page_app_never_recommends str_of_text
           (λ _ _, Replied three_entries_reply) london empty_world
           three_entries_reply (forecast_set three_entries) three_entries).
  - reflexivity.
  - discriminate.
  - reflexivity.
  - reflexivity.
  - reflexivity.
  - apply forecast_set_is_forecast_set.
Defined.

Section DisplayFacts.

Variable py_str : pyval → string.

Implicit Types (w : world) (x : reading) (xs : list reading) (entries : list pyval).

Lemma with_events_app w (l1 l2 : list ui_event) :
  with_events (with_events w l1) l2 = with_events w (l1 ++ l2).
Proof. unfold with_events. cbn [page exchanges session_state sleeps]. by rewrite <- app_assoc. Qed.

Lemma with_event_events w (l : list ui_event) ev :
  with_event (with_events w l) ev = with_events w (l ++ [ev]).
Proof. unfold with_events, with_event. cbn [page exchanges session_state sleeps]. by rewrite <- app_assoc. Qed.

Lemma with_events_nil w : with_events w [] = w.
Proof. unfold with_events. rewrite app_nil_r. by destruct w. Qed.

Lemma py_contains_present (d : gmap string pyval) (k : string) (v : pyval) :
  d !! k = Some v → py_contains k (PDict d) = Ok true.
Proof. intros H. cbn. by rewrite bool_decide_eq_true_2 by eauto. Qed.

Lemma py_contains_absent (d : gmap string pyval) (k : string) :
  d !! k = None → py_contains k (PDict d) = Ok false.
Proof. intros H. cbn. rewrite bool_decide_eq_false_2; [done|]. rewrite H. by intros [? ?]. Qed.

(** One pass of the loop on an entry that reads as [x]. *)
Lemma display_forecast_shows entry x w :
  shows_as entry x →
  display_forecast py_str entry w = (Ok (), with_events w (forecast_events py_str x)).
Proof.
  intros (d & -> & Hdt & Hweather & Hmain & Hwind).
  unfold display_forecast, forecast_events.
  destruct (r_weather x) as [[[wmain description] icon]|];
    [destruct Hweather as (conditions & weather & Hweather & H0 & Hicon & Hwm & Hds & _)|];
  (destruct (r_main x) as [[temp humidity]|];
    [destruct Hmain as (main & Hmain & Htemp & Hhum)|]);
  (destruct (r_wind x) as [speed|]; [destruct Hwind as (wind & Hwind & Hspeed)|]);
  rewrite ?(py_contains_present _ _ _ Hweather), ?(py_contains_absent _ _ Hweather),
    ?(py_contains_present _ _ _ Hmain), ?(py_contains_absent _ _ Hmain),
    ?(py_contains_present _ _ _ Hwind), ?(py_contains_absent _ _ Hwind);
  cbn [getitem]; rewrite Hdt, ?Hweather, ?Hmain, ?Hwind;
  repeat (run_M; progress rewrite ?H0, ?Hicon, ?Hwm, ?Hds, ?Htemp, ?Hhum, ?Hspeed);
  run_M; unfold with_events, with_event; cbn [page exchanges session_state sleeps app];
  rewrite <- ?app_assoc; reflexivity.
Qed.

(** The loop on a list of entries that read as [xs]. *)
Lemma display_entries_show entries xs w :
  Forall2 shows_as entries xs →
  for_each (display_forecast py_str) entries w
  = (Ok (), with_events w (concat (forecast_events py_str <$> xs))).
Proof.
  intros Hshow. revert w.
  induction Hshow as [|entry x entries xs Hx _ IH]; intros w.
  - cbn. by rewrite with_events_nil.
  - cbn [for_each]. rewrite bind_run, (display_forecast_shows entry x w Hx).
    rewrite IH, with_events_app. reflexivity.
Qed.

End DisplayFacts.

(** X20. [display_forecasts] (source lines 223-261) returns for a list
    of entries that each have a 'dt_txt' and in which every section that
    is present is complete: a 'weather' whose first item has 'icon',
    'main' and a 'description' that is an ASCII string, a 'main' with
    'temp' and 'humidity', a 'wind' with 'speed'. It shows the heading and
    then, entry by entry and in this order, an expander with the
    timestamp, the weather line with the capitalised description and the
    icon, the temperature, the humidity and the wind speed; a section
    whose key the entry lacks is left out without any failure. *)
Theorem display_forecasts_shows_every_entry
    (py_str : pyval → string) (entries : list pyval) (xs : list reading) (w : world) :
  Forall2 shows_as entries xs →
  display_forecasts py_str (PList entries) w
  = (Ok (),
     with_events w (forecasts_heading :: concat (forecast_events py_str <$> xs))).
Proof.
  intros Hshow. unfold display_forecasts.
  rewrite bind_run, emit_run. cbv beta iota.
  rewrite bind_run. unfold lift at 1. cbn [py_iter]. cbv beta iota.
  rewrite (display_entries_show py_str entries xs _ Hshow).
  f_equal. unfold with_events, with_event, forecasts_heading.
  cbn [page exchanges session_state sleeps]. by rewrite <- app_assoc.
Qed.

(** X20 at one complete entry followed by one that holds a timestamp
    only. *)
Lemma display_forecasts_shows_every_entry_witness :
  display_forecasts str_of_text
    (PList [noon_entry; PDict {[ "dt_txt" := PStr "2024-05-01 15:00:00" ]}]) empty_world
  = (Ok (),
     with_events empty_world
       (forecasts_heading
        :: concat (forecast_events str_of_text
                     <$> [noon_reading;
                          {| r_dt_txt := PStr "2024-05-01 15:00:00"; r_weather := None;
                             r_main := None; r_wind := None |}]))).
Proof.
  apply (display_forecasts_shows_every_entry str_of_text).
  repeat constructor.
  - eexists. split; [reflexivity|]. split; [reflexivity|]. cbn.
    split_and!; eexists; repeat (eexists || split); reflexivity.
  - eexists. split; [reflexivity|]. split_and!; reflexivity.
Defined.

(** X21. [display_forecasts] reads the timestamp without a test (source
    line 225): behind entries that are shown completely (each as in X20),
    an entry without 'dt_txt' makes it raise [KeyError('dt_txt')] once
    those entries have been shown, and nothing of that entry or of the
    later ones is shown. *)
Theorem display_forecasts_entry_without_dt_txt
    (py_str : pyval → string) (good rest : list pyval) (xs : list reading)
    (bad : gmap string pyval) (w : world) :
  Forall2 shows_as good xs →
  bad !! "dt_txt" = None →
  display_forecasts py_str (PList (good ++ PDict bad :: rest)) w
  = (Raise (KeyError "dt_txt"),
     with_events w (forecasts_heading :: concat (forecast_events py_str <$> xs))).
Proof.
  intros Hshow Hbad. unfold display_forecasts.
  rewrite bind_run, emit_run. cbv beta iota.
  rewrite bind_run. unfold lift at 1. cbn [py_iter]. cbv beta iota.
  rewrite for_each_app, (display_entries_show py_str good xs _ Hshow).
  cbn [for_each]. rewrite bind_run. unfold display_forecast at 1.
  rewrite bind_run. unfold lift at 1. cbn [getitem]. rewrite Hbad.
  f_equal. unfold with_events, with_event, forecasts_heading.
  cbn [page exchanges session_state sleeps]. by rewrite <- app_assoc.
Qed.

(** X21 at one complete entry followed by an entry without timestamp. *)
Lemma display_forecasts_entry_without_dt_txt_witness :
  display_forecasts str_of_text (PList ([noon_entry] ++ PDict dry_entry :: [])) empty_world
  = (Raise (KeyError "dt_txt"),
     with_events empty_world
       (forecasts_heading :: concat (forecast_events str_of_text <$> [noon_reading]))).
Proof.
  apply (display_forecasts_entry_without_dt_txt str_of_text [noon_entry] []
           [noon_reading] dry_entry empty_world).
  - repeat constructor. eexists. split; [reflexivity|]. split; [reflexivity|]. cbn.
    split_and!; eexists; repeat (eexists || split); reflexivity.
  - reflexivity.
Defined.

(** X22. The tests [if 'main' in forecast] guard the section, not its
    fields: an entry whose 'main' has a 'temp' but no 'humidity' shows its
    expander and its temperature and then raises [KeyError('humidity')]
    (source lines 237-246), whatever else the entry holds besides an
    absent 'weather'. *)
Theorem display_forecasts_partial_entry
    (py_str : pyval → string) (d : gmap string pyval) (rest : list pyval)
    (dt_txt main temp : pyval) (w : world) :
  d !! "dt_txt" = Some dt_txt → d !! "weather" = None →
  d !! "main" = Some main → getitem main "temp" = Ok temp →
  getitem main "humidity" = Raise (KeyError "humidity") →
  display_forecasts py_str (PList (PDict d :: rest)) w
  = (Raise (KeyError "humidity"),
     with_events w
       [forecasts_heading; StExpander ("Details for " +:+ py_str dt_txt);
        StForecastTemperature temp]).
Proof.
  intros Hdt Hweather Hmain Htemp Hhum. unfold display_forecasts.
  rewrite bind_run, emit_run. cbv beta iota.
  rewrite bind_run. unfold lift at 1. cbn [py_iter for_each]. cbv beta iota.
  rewrite bind_run. unfold display_forecast at 1.
  rewrite (py_contains_absent _ _ Hweather), (py_contains_present _ _ _ Hmain).
  cbn [getitem]. rewrite Hdt, Hmain.
  repeat (run_M; progress rewrite ?Htemp, ?Hhum).
  run_M. unfold with_events, with_event, forecasts_heading.
  cbn [page exchanges session_state sleeps]. by rewrite <- !app_assoc.
Qed.

(** X22 at an entry with a temperature but no humidity. *)
Lemma display_forecasts_partial_entry_witness :
  display_forecasts str_of_text (PList [PDict half_entry]) empty_world
  = (Raise (KeyError "humidity"),
     with_events empty_world
       [forecasts_heading;
        StExpander ("Details for " +:+ str_of_text (PStr "2024-05-01 18:00:00"));
        StForecastTemperature (PNum (Q2Qc 9))]).
Proof.
  apply (display_forecasts_partial_entry str_of_text half_entry []
           (PStr "2024-05-01 18:00:00") (PDict {[ "temp" := PNum (Q2Qc 9) ]})
           (PNum (Q2Qc 9)) empty_world); reflexivity.
Defined.

(* ===================================================================== *)
(** ** The recommendation request                                         *)
(* ===================================================================== *)

Section RecommendFacts.

Variable py_str : pyval → string.
Variable network : nat → request → exchange.

(** [recommend] up to the answer of the endpoint. *)
Lemma recommend_answered i s w r :
  network (length (exchanges w)) (recommendation_request i s) = Replied r →
  ¬ (400 ≤ status_code r < 600)%Z →
  recommend py_str network i s w
  = (if bool_decide (status_code r = 200%Z) then
       _ ← emit recommendations_heading;
       suggestions ← lift (response_json r);
       formatted_suggestions ← lift (format_outfit_suggestions py_str suggestions);
       emit (StMarkdown ("<div class='response-info'>" +:+ formatted_suggestions
                         +:+ "</div>"))
     else
       _ ← st_error (FailedToSendData (status_code r));
       emit (StShow "Response content:" (text r)))
      (after_recommendation i s w).
Proof.
  intros Hr Hstatus. unfold recommend.
  rewrite bind_run, show_loading_bar_returns by lia. cbv beta iota.
  rewrite bind_run, send_request_known_method by auto. cbv zeta.
  fold (recommendation_request i s). fold (at_recommendation w).
  change (exchanges (at_recommendation w)) with (exchanges w).
  rewrite Hr, bool_decide_eq_false_2 by done. cbv beta iota.
  fold (after_recommendation i s w).
  unfold is_200, response_ok. rewrite bool_decide_eq_false_2 by done.
  cbn [negb andb]. case_bool_decide; [reflexivity|].
  unfold attr_status_code, attr_text. rewrite bind_run. unfold mret at 1, M_ret at 1.
  cbv beta iota. rewrite !bind_run.
  destruct (st_error _ _) as [[[]|e] w']; [|reflexivity].
  rewrite bind_run. reflexivity.
Qed.

(** However the call ends, it has added to the world of the request. *)
Lemma recommend_outcome i s w :
  ∃ res shown,
    recommend py_str network i s w
    = (res, with_events (after_recommendation i s w) shown).
Proof.
  destruct (network (length (exchanges w)) (recommendation_request i s)) as [r|f] eqn:Hr.
  - destruct (decide (400 ≤ status_code r < 600)%Z) as [Hfail|Hpass].
    + exists (Raise (AttributeError "status_code")),
        [StError (HttpRequestFailed (RequestException (HTTPError (status_code r))))].
      rewrite (recommend_failed_fetch py_str network i s w (HTTPError (status_code r))).
      * reflexivity.
      * fold (recommendation_request i s). rewrite Hr. cbn [failure_of].
        by rewrite bool_decide_eq_true_2.
    + rewrite (recommend_answered i s w r Hr Hpass). case_bool_decide.
      * unfold response_json. destruct (json_body r) as [suggestions|].
        -- destruct (format_outfit_suggestions py_str suggestions) as [markup|e] eqn:Hf.
           ++ eexists _, [recommendations_heading; StMarkdown _].
              run_M. rewrite Hf. run_M.
              unfold with_events, with_event. cbn [page exchanges session_state sleeps].
              by rewrite <- app_assoc.
           ++ eexists _, [recommendations_heading].
              run_M. rewrite Hf. reflexivity.
        -- eexists _, [recommendations_heading]. run_M. reflexivity.
      * eexists _, [StError _; StShow _ _]. unfold st_error. run_M.
        unfold with_events, with_event. cbn [page exchanges session_state sleeps].
        by rewrite <- app_assoc.
  - exists (Raise (AttributeError "status_code")),
      [StError (HttpRequestFailed (RequestException f))].
    rewrite (recommend_failed_fetch py_str network i s w f).
    + reflexivity.
    + fold (recommendation_request i s). by rewrite Hr.
Qed.

End RecommendFacts.

(** X23. When the recommendation endpoint answers 200 with a body from
    which [format_outfit_suggestions] builds its markup, the page gains
    the loading bar, the heading and the markup wrapped in the
    'response-info' block; one POST with the aggregated data has been
    sent and nothing is raised (source lines 346-355). *)
Theorem recommend_shows_suggestions
    (py_str : pyval → string) (network : nat → request → exchange)
    (i : inputs) (s : summary) (w : world) (r : response)
    (suggestions : pyval) (markup : string) :
  network (length (exchanges w)) (recommendation_request i s) = Replied r →
  status_code r = 200%Z →
  json_body r = Some suggestions →
  format_outfit_suggestions py_str suggestions = Ok markup →
  recommend py_str network i s w
  = (Ok (),
     with_events (after_recommendation i s w)
       [recommendations_heading;
        StMarkdown ("<div class='response-info'>" +:+ markup +:+ "</div>")]).
Proof.
  intros Hr Hstatus Hjson Hmarkup.
  rewrite (recommend_answered py_str network i s w r Hr) by lia.
  rewrite bool_decide_eq_true_2 by done.
  unfold response_json. rewrite Hjson.
  run_M. rewrite Hmarkup. run_M.
  unfold with_events, with_event. cbn [page exchanges session_state sleeps].
  by rewrite <- app_assoc.
Qed.

(** X23 at a complete wardrobe. *)
Lemma recommend_shows_suggestions_witness :
  recommend str_of_text (λ _ _, Replied wardrobe_reply) london mild empty_world
  = (Ok (),
     with_events (after_recommendation london mild empty_world)
       [recommendations_heading;
        StMarkdown ("<div class='response-info'>"
                    +:+ outfit_markup str_of_text (PStr "T-shirt") (PStr "Shorts")
                          (PStr "Sandals") (PStr "None") (PStr "Sunglasses")
                    +:+ "</div>")]).
Proof.
  apply (recommend_shows_suggestions str_of_text (λ _ _, Replied wardrobe_reply) london
           mild empty_world wardrobe_reply (PDict a_wardrobe)); reflexivity.
Defined.

(** X24. When the endpoint answers 200 with a JSON object that lacks one
    of the five clothing slots, the heading is already on the page when
    the formatter fails: the call raises a [KeyError], which is no
    [ValueError] (so the [except ValueError] around it does not apply),
    and no markup is shown (source lines 352-355). *)
Theorem recommend_incomplete_reply
    (py_str : pyval → string) (network : nat → request → exchange)
    (i : inputs) (s : summary) (w : world) (r : response)
    (d : gmap string pyval) (slot : string) :
  network (length (exchanges w)) (recommendation_request i s) = Replied r →
  status_code r = 200%Z →
  json_body r = Some (PDict d) →
  slot ∈ clothing_slots → d !! slot = None →
  ∃ k, k ∈ clothing_slots ∧ d !! k = None
    ∧ is_ValueError (KeyError k) = false
    ∧ recommend py_str network i s w
      = (Raise (KeyError k),
         with_event (after_recommendation i s w) recommendations_heading).
Proof.
  intros Hr Hstatus Hjson Hslot Hnone.
  destruct (format_outfit_suggestions_cases py_str d)
    as [(top & bottom & footwear & outerwear & accessories & H1 & H2 & H3 & H4 & H5 & _)
       |(k & Hk & Hkd & Hraise)].
  { apply elem_of_clothing_slots in Hslot as [->|[->|[->|[->| ->]]]]; congruence. }
  exists k. split_and!; [done..|].
  rewrite (recommend_answered py_str network i s w r Hr) by lia.
  rewrite bool_decide_eq_true_2 by done.
  unfold response_json. rewrite Hjson.
  run_M. rewrite Hraise. reflexivity.
Qed.

(** X24 at a reply without "Outerwear". *)
Lemma recommend_incomplete_reply_witness :
  ∃ k, k ∈ clothing_slots ∧ no_outerwear !! k = None
    ∧ is_ValueError (KeyError k) = false
    ∧ recommend str_of_text (λ _ _, Replied no_outerwear_reply) london mild empty_world
      = (Raise (KeyError k),
         with_event (after_recommendation london mild empty_world)
           recommendations_heading).
Proof.
  apply (recommend_incomplete_reply str_of_text (λ _ _, Replied no_outerwear_reply)
           london mild empty_world no_outerwear_reply no_outerwear "Outerwear").
  - reflexivity.
  - reflexivity.
  - reflexivity.
  - apply elem_of_clothing_slots. auto.
  - reflexivity.
Defined.

(** X25. Every answer of the recommendation endpoint with a status other
    than 200 that [send_request] hands back (below 400 or from 600 on:
    201, 204, 304, ...) is reported as a failure: the page shows "Failed
    to send data" with the status and then the body of the response, no
    suggestion is read from it, and the call returns (source lines
    357-359). *)
Theorem recommend_other_status
    (py_str : pyval → string) (network : nat → request → exchange)
    (i : inputs) (s : summary) (w : world) (r : response) :
  network (length (exchanges w)) (recommendation_request i s) = Replied r →
  status_code r ≠ 200%Z → ¬ (400 ≤ status_code r < 600)%Z →
  recommend py_str network i s w
  = (Ok (),
     with_events (after_recommendation i s w)
       [StError (FailedToSendData (status_code r));
        StShow "Response content:" (text r)]).
Proof.
  intros Hr Hstatus Hrange.
  rewrite (recommend_answered py_str network i s w r Hr) by done.
  rewrite bool_decide_eq_false_2 by done.
  unfold st_error. run_M.
  unfold with_events, with_event. cbn [page exchanges session_state sleeps].
  by rewrite <- app_assoc.
Qed.

(** X25 at "201 Created". *)
Lemma recommend_other_status_witness :
  recommend str_of_text (λ _ _, Replied created) london mild empty_world
  = (Ok (),
     with_events (after_recommendation london mild empty_world)
       [StError (FailedToSendData 201); StShow "Response content:" "Created"]).
Proof.
  apply (recommend_other_status str_of_text (λ _ _, Replied created) london mild
           empty_world created); [reflexivity|done|].
  cbn [status_code created]. lia.
Defined.

(** X26. For a summary whose three averages are numbers (a [nan] among
    them is refused by [requests] before anything is sent), whatever the
    endpoint does and however the step ends, the recommendation half of a
    submission performs exactly one exchange, the POST to the
    recommendation endpoint of the lower-cased choices, the three numbers
    and the label, after a loading bar of one hundred 10 ms steps; it
    leaves the session state alone and keeps what was on the page (source
    lines 337-359). *)
Theorem recommend_one_POST
    (py_str : pyval → string) (network : nat → request → exchange)
    (i : inputs) (s : summary) (w : world) (t h v : Qc) :
  avg_temp s = Fin t → avg_humidity s = Fin h → avg_wind_speed s = Fin v →
  ∃ res shown,
    recommend py_str network i s w
    = (res, with_events (after_recommendation i s w) shown)
    ∧ exchanges (with_events (after_recommendation i s w) shown)
      = exchanges w ++ [recommendation_request i s]
    ∧ req_method (recommendation_request i s) = "POST"
    ∧ req_url (recommendation_request i s) = lambda_url
    ∧ req_json (recommendation_request i s)
      = Some {[ "activity_level" := FieldStr (lower (level_label (chosen_level i)));
                "activity_type" := FieldStr (lower (type_label (chosen_type i)));
                "avg_temp" := FieldFloat (Fin t);
                "avg_humidity" := FieldFloat (Fin h);
                "avg_wind_speed" := FieldFloat (Fin v);
                "most_common_weather" := FieldValue (most_common_weather s) ]}
    ∧ sleeps (with_events (after_recommendation i s w) shown) = sleeps w + 100
    ∧ session_state (with_events (after_recommendation i s w) shown) = session_state w.
Proof.
  intros Ht Hh Hv.
  destruct (recommend_outcome py_str network i s w) as (res & shown & Hrun).
  exists res, shown. split; [exact Hrun|]. split_and!; [reflexivity..| |reflexivity|reflexivity].
  rewrite <- Ht, <- Hh, <- Hv. reflexivity.
Qed.

(** X26 at the summary 12 degrees, 60 %, 2 m/s, "Rain", on a network where
    every exchange times out. *)
Lemma recommend_one_POST_witness :
  ∃ res shown,
    recommend str_of_text always_timeout london mild empty_world
    = (res, with_events (after_recommendation london mild empty_world) shown)
    ∧ exchanges (with_events (after_recommendation london mild empty_world) shown)
      = exchanges empty_world ++ [recommendation_request london mild]
    ∧ req_method (recommendation_request london mild) = "POST"
    ∧ req_url (recommendation_request london mild) = lambda_url
    ∧ req_json (recommendation_request london mild)
      = Some {[ "activity_level" := FieldStr (lower (level_label (chosen_level london)));
                "activity_type" := FieldStr (lower (type_label (chosen_type london)));
                "avg_temp" := FieldFloat (Fin (Q2Qc 12));
                "avg_humidity" := FieldFloat (Fin (Q2Qc 60));
                "avg_wind_speed" := FieldFloat (Fin (Q2Qc 2));
                "most_common_weather" := FieldValue (most_common_weather mild) ]}
    ∧ sleeps (with_events (after_recommendation london mild empty_world) shown)
      = sleeps empty_world + 100
    ∧ session_state (with_events (after_recommendation london mild empty_world) shown)
      = session_state empty_world.
Proof.
  apply (recommend_one_POST str_of_text always_timeout london mild empty_world
           (Q2Qc 12) (Q2Qc 60) (Q2Qc 2)); reflexivity.
Defined.
